(** * export_nvdb: a shallow embedding and its verified properties

    The program exports every NVDB feature type that carries geometry to
    one GeoPackage file, one layer per feature type.  This development
    embeds its three functions:

    - [safe_layer_name]  (layer name sanitizer),
    - [parse_geometry]   (geometry normalizer),
    - [main]             (catalog filter, per-type fetch loop, layer writer).

    Everything the program calls but does not define (the Python runtime,
    shapely, the NVDB client, geopandas) is an interface, given as a type
    class; the theorems hold for every implementation of the interfaces. *)

From Stdlib Require Import ZArith NArith String Ascii DecimalString.
From Stdlib Require Import Floats.SpecFloat.
From stdpp Require Import base tactics option list gmap.

Set Warnings "-register-all".
Local Open Scope nat_scope.

(* ===================================================================== *)
(** * Python values *)
(* ===================================================================== *)

(** A Python [str] is a sequence of Unicode code points. *)
Definition codepoint := N.
Definition str := list codepoint.

(** Reading a literal: each character of a Rocq string is one code point. *)
Definition lit (s : string) : str := map N_of_ascii (list_ascii_of_string s).

(** The values a decoded JSON document is made of.  A [dict] keeps its
    items in insertion order. *)
Inductive pyval :=
| PNone
| PBool (b : bool)
| PInt (z : Z)
| PFloat (f : spec_float)
| PStr (s : str)
| PList (l : list pyval)
| PDict (d : list (str * pyval)).

Abbreviation dict := (list (str * pyval)).

(** [bool(v)]: the truth value tested by [if v], [not v] and [a or b]. *)
Definition truthy (v : pyval) : bool :=
  match v with
  | PNone => false
  | PBool b => b
  | PInt z => negb (z =? 0)%Z
  | PFloat (S754_zero _) => false
  | PFloat _ => true
  | PStr s => negb (bool_decide (s = []))
  | PList l => match l with [] => false | _ => true end
  | PDict d => match d with [] => false | _ => true end
  end.

(** [a or b] *)
Definition py_or (a b : pyval) : pyval := if truthy a then a else b.

(** [v is None] and [isinstance(v, str)] *)
Definition is_none (v : pyval) : bool :=
  match v with PNone => true | _ => false end.
Definition is_str (v : pyval) : bool :=
  match v with PStr _ => true | _ => false end.

(** [d.get(k)]: the value stored under [k], [None] when there is none. *)
Fixpoint dict_get (d : dict) (k : str) : pyval :=
  match d with
  | [] => PNone
  | (k', v) :: rest => if bool_decide (k' = k) then v else dict_get rest k
  end.

(** [k in d] *)
Definition dict_has (d : dict) (k : str) : bool :=
  existsb (fun kv => bool_decide (kv.1 = k)) d.

(** The items left by [d.pop(k, None)]. *)
Definition dict_pop (d : dict) (k : str) : dict :=
  filter (fun kv => kv.1 <> k) d.

(* ===================================================================== *)
(** * String operations *)
(* ===================================================================== *)

Fixpoint lstrip_with (p : codepoint -> bool) (s : str) : str :=
  match s with
  | [] => []
  | c :: r => if p c then lstrip_with p r else s
  end.

Definition rstrip_with (p : codepoint -> bool) (s : str) : str :=
  reverse (lstrip_with p (reverse s)).

(** [s.strip()] for [p] the whitespace test, [s.strip(chars)] for [p] the
    membership test of [chars]. *)
Definition strip_with (p : codepoint -> bool) (s : str) : str :=
  rstrip_with p (lstrip_with p s).

(** [re.sub("[...]+", repl, s)] for a character class [cls]: every maximal
    run of characters of the class is replaced by [repl].  [in_run] says
    that the character before the current one belonged to the class. *)
Fixpoint re_sub_runs (cls : codepoint -> bool) (repl : str)
    (in_run : bool) (s : str) : str :=
  match s with
  | [] => []
  | c :: r =>
      if cls c then
        (if in_run then [] else repl) ++ re_sub_runs cls repl true r
      else c :: re_sub_runs cls repl false r
  end.

Definition re_sub_plus (cls : codepoint -> bool) (repl s : str) : str :=
  re_sub_runs cls repl false s.

Definition underscore : codepoint := 95%N.

(** The class [[a-z0-9_]]. *)
Definition layer_char (c : codepoint) : bool :=
  ((97 <=? c) && (c <=? 122) || (48 <=? c) && (c <=? 57) || (c =? underscore))%N.

Definition is_underscore (c : codepoint) : bool := (c =? underscore)%N.

(** The part of the Python runtime that depends on the Unicode tables or
    on the standard library. *)
Class PyRuntime := {
  (** [s.lower()] *)
  str_lower : str -> str;
  (** the characters [s.strip()] removes *)
  str_isspace : codepoint -> bool;
  (** the text an f-string puts in place of [{v}] *)
  py_format : pyval -> str;
  (** [json.dumps(d, ensure_ascii=b)] *)
  json_dumps : bool -> dict -> str;
}.

(* ===================================================================== *)
(** * safe_layer_name *)
(* ===================================================================== *)

Section Sanitizer.
Context {rt : PyRuntime}.

(** The three rewriting lines of [safe_layer_name], between the two
    fallback tests. *)
Definition sanitize (name : str) : str :=
  let name := str_lower (strip_with str_isspace name) in
  let name := re_sub_plus (fun c => negb (layer_char c)) [underscore] name in
  strip_with is_underscore (re_sub_plus is_underscore [underscore] name).

Definition safe_layer_name (name fallback : str) : str :=
  let name := if bool_decide (name = []) then fallback else name in
  let name := sanitize name in
  let name := if bool_decide (name = []) then fallback else name in
  take 50 name.
End Sanitizer.

(** A string that matches [^[a-z0-9_]{1,50}$] in full. *)
Definition layer_name_ok (s : str) : Prop :=
  1 <= length s <= 50 /\ Forall (fun c => layer_char c = true) s.

Definition layer_name_okb (s : str) : bool :=
  (1 <=? length s) && (length s <=? 50) && forallb layer_char s.

(* ===================================================================== *)
(** * parse_geometry *)
(* ===================================================================== *)

(** shapely: [Geometry] is the type of its geometry objects; [shape] and
    [wkt_loads] return [None] where the Python function raises. *)
Class Shapely := {
  Geometry : Type;
  (** [shapely.geometry.shape(d)] *)
  shape : dict -> option Geometry;
  (** [shapely.wkt.loads(s)] *)
  wkt_loads : str -> option Geometry;
}.

Section Normalizer.
Context {rt : PyRuntime} {geo : Shapely}.

(** [isinstance(v, str) and v.strip()], then [wkt.loads(v)] under
    [try]: the shared tail of cases B and C. *)
Definition loads_text (v : pyval) : option Geometry :=
  match v with
  | PStr s =>
      if truthy (PStr (strip_with str_isspace s)) then wkt_loads s else None
  | _ => None
  end.

(** The result [None] is Python's [None]; [Some g] is a geometry. *)
Definition parse_geometry (geom : pyval) : option Geometry :=
  if negb (truthy geom) then None
  else
    match geom with
    | PDict d =>
        (* Case A: GeoJSON-like dict *)
        let gtype := dict_get d (lit "type") in
        let coords := dict_get d (lit "coordinates") in
        let direct :=
          if is_str gtype && negb (is_none coords) then shape d else None in
        match direct with
        | Some g => Some g
        | None =>
            (* Case B: WKT inside dict *)
            let wkt_text := py_or (dict_get d (lit "wkt")) (dict_get d (lit "WKT")) in
            loads_text wkt_text
        end
    | PStr _ =>
        (* Case C: WKT directly as string *)
        loads_text geom
    | _ => None
    end.
End Normalizer.

(* ===================================================================== *)
(** * main *)
(* ===================================================================== *)

(** The settings at the head of the module.  [OUT_DIR] and [BASENAME]
    only enter the name of the output file and are left out with it. *)
Record settings := {
  FYLKE : Z;
  CRS : str;
  INCLUDE_PROPERTIES_AS_JSON : bool;
}.

Definition default_settings : settings :=
  {| FYLKE := 56; CRS := lit "EPSG:5973"; INCLUDE_PROPERTIES_AS_JSON := true |}.

(** What iterating an [nvdbFagdata] object does: it yields a record, or
    stops, or raises. *)
Inductive result_iter :=
| IterStop
| IterYield (obj : dict) (rest : result_iter)
| IterRaise.

(** The records an iteration yields before it stops or raises, and
    whether it ends by raising. *)
Fixpoint iter_records (it : result_iter) : list dict :=
  match it with
  | IterYield obj rest => obj :: iter_records rest
  | _ => []
  end.

Fixpoint iter_raises (it : result_iter) : bool :=
  match it with
  | IterStop => false
  | IterYield _ rest => iter_raises rest
  | IterRaise => true
  end.

(** [nvdbFagdata(objtype_id)] followed by [.filter({"fylke": FYLKE})]. *)
Inductive query :=
| QueryRaises
| QueryReady (it : result_iter).

(** The NVDB client.  [nvdbObjekttyper] is [None] when the catalog call
    raises. *)
Class Upstream := {
  nvdbObjekttyper : option (list dict);
  nvdbFagdata : pyval -> Z -> query;
}.

Section Rows.
Context {geo : Shapely}.

(** The dict [rec] appended to [rows]; [properties] is absent when the
    option is off. *)
Record row := {
  r_id : pyval;
  r_objekttype : pyval;
  r_objekttype_navn : pyval;
  r_geometry : Geometry;
  r_properties : option str;
}.

(** The local variables of one type's fetch. *)
Record fetch_state := {
  rows : list row;
  skipped_no_geom : nat;
  skipped_bad_geom : nat;
  fetched : nat;
}.

Definition fetch_init : fetch_state :=
  {| rows := []; skipped_no_geom := 0; skipped_bad_geom := 0; fetched := 0 |}.

Inductive write_mode := ModeW | ModeA.

(** One call [gdf.to_file(outfile, layer=.., driver="GPKG", mode=..)] of
    a frame built from [w_rows] with [crs=w_crs]; [w_mode] is [None] when
    the call passes no [mode]. *)
Record layer_write := {
  w_layer : str;
  w_crs : str;
  w_mode : option write_mode;
  w_rows : list row;
}.

Inductive to_file_result :=
| Written
| RaisesTypeError
| RaisesOther.

(** geopandas: what a [to_file] call does, given the calls that have
    succeeded on the file so far.  Building the frame
    ([gpd.GeoDataFrame(rows, crs=CRS)]) is part of the call. *)
Class Sink := {
  to_file : list layer_write -> layer_write -> to_file_result;
}.

(** The run-level variables of [main], with the two things the run does
    to the outside: [queried] lists the ids [nvdbFagdata] was called
    with, [outfile] the [to_file] calls that succeeded, both oldest
    first.  The file is named after the start time and does not exist
    before the first successful call. *)
Record run_state := {
  total_features : nat;
  total_skipped_no_geom : nat;
  total_skipped_bad_geom : nat;
  failed_types : nat;
  queried : list pyval;
  outfile : list layer_write;
}.

Definition run_init : run_state :=
  {| total_features := 0; total_skipped_no_geom := 0;
     total_skipped_bad_geom := 0; failed_types := 0;
     queried := []; outfile := [] |}.

(** A loop iteration ends normally ([Continue]: the next type follows)
    or with an exception nothing catches ([Uncaught]: the run ends). *)
Inductive outcome :=
| Continue (st : run_state)
| Uncaught (st : run_state).

Definition final_state (o : outcome) : run_state :=
  match o with Continue st | Uncaught st => st end.

Definition completed (o : outcome) : bool :=
  match o with Continue _ => true | Uncaught _ => false end.
End Rows.

Section Main.
Context {rt : PyRuntime} {geo : Shapely} {snk : Sink} {api : Upstream}.
Variable cfg : settings.

(** Lines 92-95: the test that keeps a catalog entry. *)
Definition has_geometry (o : dict) : bool :=
  let has_geom := dict_get o (lit "harGeometri") in
  let has_geom :=
    if is_none has_geom then dict_get o (lit "har_geometri") else has_geom in
  truthy has_geom.

(** Lines 147-151. *)
Definition properties_of (obj : dict) : option str :=
  if INCLUDE_PROPERTIES_AS_JSON cfg then
    let obj_copy := dict_pop obj (lit "geometri") in
    Some (json_dumps false obj_copy)
  else None.

(** Lines 140-151. *)
Definition build_row (objtype_id objtype_name : pyval) (obj : dict)
    (geometry : Geometry) : row :=
  {| r_id := dict_get obj (lit "id");
     r_objekttype := objtype_id;
     r_objekttype_navn := objtype_name;
     r_geometry := geometry;
     r_properties := properties_of obj |}.

(** Lines 129-153: the body of [for obj in nvdb]. *)
Definition fetch_step (objtype_id objtype_name : pyval)
    (st : fetch_state) (obj : dict) : fetch_state :=
  let fetched' := fetched st + 1 in
  let geom := dict_get obj (lit "geometri") in
  let geometry := parse_geometry geom in
  if negb (truthy geom) then
    {| rows := rows st; skipped_no_geom := skipped_no_geom st + 1;
       skipped_bad_geom := skipped_bad_geom st; fetched := fetched' |}
  else
    match geometry with
    | None =>
        {| rows := rows st; skipped_no_geom := skipped_no_geom st;
           skipped_bad_geom := skipped_bad_geom st + 1; fetched := fetched' |}
    | Some g =>
        {| rows := rows st ++ [build_row objtype_id objtype_name obj g];
           skipped_no_geom := skipped_no_geom st;
           skipped_bad_geom := skipped_bad_geom st; fetched := fetched' |}
    end.

(** Lines 127-158: [None] when the iteration raises and the [except]
    clause is entered. *)
Fixpoint fetch_loop (objtype_id objtype_name : pyval)
    (st : fetch_state) (it : result_iter) : option fetch_state :=
  match it with
  | IterStop => Some st
  | IterYield obj rest =>
      fetch_loop objtype_id objtype_name
        (fetch_step objtype_id objtype_name st obj) rest
  | IterRaise => None
  end.

(** The three ways the loop body can end for a record. *)
Inductive bucket := Built | NoGeom | BadGeom.

Definition bucket_of (obj : dict) : bucket :=
  let geom := dict_get obj (lit "geometri") in
  if negb (truthy geom) then NoGeom
  else if parse_geometry geom is Some _ then Built else BadGeom.

Definition in_bucket (b : bucket) (obj : dict) : bool :=
  match b, bucket_of obj with
  | Built, Built | NoGeom, NoGeom | BadGeom, BadGeom => true
  | _, _ => false
  end.

(** The number of records of [l] that end in bucket [b]. *)
Definition count_in (b : bucket) (l : list dict) : nat :=
  length (List.filter (in_bucket b) l).

Definition count_failed (st : run_state) : run_state :=
  {| total_features := total_features st;
     total_skipped_no_geom := total_skipped_no_geom st;
     total_skipped_bad_geom := total_skipped_bad_geom st;
     failed_types := failed_types st + 1;
     queried := queried st; outfile := outfile st |}.

Definition count_skipped (st : run_state) (fs : fetch_state) : run_state :=
  {| total_features := total_features st;
     total_skipped_no_geom := total_skipped_no_geom st + skipped_no_geom fs;
     total_skipped_bad_geom := total_skipped_bad_geom st + skipped_bad_geom fs;
     failed_types := failed_types st;
     queried := queried st; outfile := outfile st |}.

Definition count_written (st : run_state) (fs : fetch_state)
    (w : layer_write) : run_state :=
  {| total_features := total_features st + length (rows fs);
     total_skipped_no_geom := total_skipped_no_geom st + skipped_no_geom fs;
     total_skipped_bad_geom := total_skipped_bad_geom st + skipped_bad_geom fs;
     failed_types := failed_types st;
     queried := queried st; outfile := outfile st ++ [w] |}.

Definition note_query (st : run_state) (objtype_id : pyval) : run_state :=
  {| total_features := total_features st;
     total_skipped_no_geom := total_skipped_no_geom st;
     total_skipped_bad_geom := total_skipped_bad_geom st;
     failed_types := failed_types st;
     queried := queried st ++ [objtype_id]; outfile := outfile st |}.

(** Lines 166-188. *)
Definition write_layer (st : run_state) (layer : str)
    (fs : fetch_state) : outcome :=
  let exists_ := negb (bool_decide (outfile st = [])) in
  let mode := if negb exists_ then ModeW else ModeA in
  let w := {| w_layer := layer; w_crs := CRS cfg;
              w_mode := Some mode; w_rows := rows fs |} in
  match to_file (outfile st) w with
  | Written => Continue (count_written st fs w)
  | RaisesTypeError =>
      let w' := {| w_layer := layer; w_crs := CRS cfg;
                   w_mode := None; w_rows := rows fs |} in
      match to_file (outfile st) w' with
      | Written => Continue (count_written st fs w')
      | _ => Uncaught st
      end
  | RaisesOther => Uncaught st
  end.

(** [f"objtype_{objtype_id}"] *)
Definition objtype_fallback (objtype_id : pyval) : str :=
  lit "objtype_" ++ py_format objtype_id.

(** Lines 108-110. *)
Definition objtype_id_of (o : dict) : pyval := dict_get o (lit "id").

Definition objtype_name_of (o : dict) : pyval :=
  py_or (dict_get o (lit "navn")) (PStr (objtype_fallback (objtype_id_of o))).

(** [layer_of] is [None] when [objtype_name] is not a [str]:
    [safe_layer_name] calls [name.strip()], which then raises. *)
Definition layer_of (o : dict) : option str :=
  match objtype_name_of o with
  | PStr name => Some (safe_layer_name name (objtype_fallback (objtype_id_of o)))
  | _ => None
  end.

(** Lines 108-188: the body of [for idx, o in enumerate(objtypes)]. *)
Definition process_type (st : run_state) (o : dict) : outcome :=
  let objtype_id := objtype_id_of o in
  let objtype_name := objtype_name_of o in
  match layer_of o with
  | None => Uncaught st
  | Some layer =>
      let st := note_query st objtype_id in
      match nvdbFagdata objtype_id (FYLKE cfg) with
      | QueryRaises => Continue (count_failed st)
      | QueryReady nvdb =>
          match fetch_loop objtype_id objtype_name fetch_init nvdb with
          | None => Continue (count_failed st)
          | Some fs =>
              if bool_decide (rows fs = []) then Continue (count_skipped st fs)
              else write_layer st layer fs
          end
      end
  end.

(** Lines 107-188: the loop over [objtypes]. *)
Fixpoint run_types (st : run_state) (objtypes : list dict) : outcome :=
  match objtypes with
  | [] => Continue st
  | o :: rest =>
      match process_type st o with
      | Continue st' => run_types st' rest
      | Uncaught st' => Uncaught st'
      end
  end.

(** Lines 90-96. *)
Definition select_objtypes (ot : list dict) : list dict :=
  List.filter has_geometry ot.

Definition main : outcome :=
  match nvdbObjekttyper with
  | None => Uncaught run_init
  | Some ot => run_types run_init (select_objtypes ot)
  end.
End Main.

(* ===================================================================== *)
(** * Row construction over a store of dict objects *)
(* ===================================================================== *)

(** [build_row] above works on the items of [obj].  In Python [obj] is a
    reference to a mutable dict, so lines 140-153 are given a second time
    over a store of dict objects, where [dict(obj)] allocates and
    [obj_copy.pop] updates in place.  The values held by a dict are not
    changed by these lines and stay plain values. *)
Module Store.
Definition loc := positive.
Abbreviation heap := (gmap loc dict).

(** [dict(items)]: a new object. *)
Definition alloc (h : heap) (d : dict) : loc * heap :=
  let l := fresh (dom h) in (l, <[l := d]> h).

(** [dict(obj)] *)
Definition copy (h : heap) (obj : loc) : option (loc * heap) :=
  d ← h !! obj; Some (alloc h d).

(** [obj.get(k)] *)
Definition get (h : heap) (obj : loc) (k : str) : option pyval :=
  d ← h !! obj; Some (dict_get d k).

(** [obj.pop(k, None)], the result dropped. *)
Definition pop (h : heap) (obj : loc) (k : str) : option heap :=
  d ← h !! obj; Some (<[obj := dict_pop d k]> h).

Section Build.
Context {rt : PyRuntime} {geo : Shapely}.
Variable cfg : settings.

(** [json.dumps(obj, ensure_ascii=False)] *)
Definition dumps (h : heap) (obj : loc) : option str :=
  d ← h !! obj; Some (json_dumps false d).

(** Lines 140-151, [None] only for a reference to no object. *)
Definition build_row_in (h : heap) (objtype_id objtype_name : pyval)
    (obj : loc) (geometry : Geometry) : option (heap * row) :=
  id ← get h obj (lit "id");
  if INCLUDE_PROPERTIES_AS_JSON cfg then
    '(obj_copy, h1) ← copy h obj;
    h2 ← pop h1 obj_copy (lit "geometri");
    properties ← dumps h2 obj_copy;
    Some (h2, {| r_id := id; r_objekttype := objtype_id;
                 r_objekttype_navn := objtype_name;
                 r_geometry := geometry;
                 r_properties := Some properties |})
  else
    Some (h, {| r_id := id; r_objekttype := objtype_id;
                r_objekttype_navn := objtype_name;
                r_geometry := geometry;
                r_properties := None |}).
End Build.
End Store.

(* ===================================================================== *)
(** * A runtime to evaluate examples *)
(* ===================================================================== *)

(** Implementations of the interfaces on which the functions above can
    be run.  They follow CPython and shapely on the data the examples
    use: text whose only letters are ASCII, no finite float other than
    zero, and [None], booleans, integers and strings where a value is
    put into an f-string. *)
Module Sample.
Local Open Scope N_scope.

Definition ascii_lower (c : codepoint) : codepoint :=
  if (65 <=? c) && (c <=? 90) then c + 32 else c.

Definition ascii_isspace (c : codepoint) : bool :=
  (9 <=? c) && (c <=? 13) || (28 <=? c) && (c <=? 32).

Definition digit (n : N) : codepoint := if n <? 10 then 48 + n else 87 + n.

(** [str(z)] for an [int]. *)
Definition decimal (z : Z) : str :=
  lit (DecimalString.NilZero.string_of_int (Z.to_int z)).

Definition backslash : codepoint := 92.
Definition quote : codepoint := 34.

Definition hex4 (n : N) : str :=
  [digit (n / 4096 mod 16); digit (n / 256 mod 16); digit (n / 16 mod 16);
   digit (n mod 16)].

Definition json_u (n : N) : str := backslash :: lit "u" ++ hex4 n.

(** The escapes of [json.dumps]: the quote, the backslash and the
    control characters always; with [ensure_ascii] also every character
    above [~], those above U+FFFF as a surrogate pair. *)
Definition json_escape (ensure_ascii : bool) (c : codepoint) : str :=
  if c =? quote then [backslash; quote]
  else if c =? backslash then [backslash; backslash]
  else if c =? 10 then backslash :: lit "n"
  else if c =? 13 then backslash :: lit "r"
  else if c =? 9 then backslash :: lit "t"
  else if c =? 8 then backslash :: lit "b"
  else if c =? 12 then backslash :: lit "f"
  else if c <? 32 then json_u c
  else if ensure_ascii && (126 <? c) then
    if c <? 65536 then json_u c
    else json_u (55296 + (c - 65536) / 1024) ++ json_u (56320 + (c - 65536) mod 1024)
  else [c].

Definition json_string (ensure_ascii : bool) (s : str) : str :=
  quote :: flat_map (json_escape ensure_ascii) s ++ [quote].

(** Finite floats other than zero are shown as [?]: no example holds
    one. *)
Definition json_float (f : spec_float) : str :=
  match f with
  | S754_zero false => lit "0.0"
  | S754_zero true => lit "-0.0"
  | S754_infinity false => lit "Infinity"
  | S754_infinity true => lit "-Infinity"
  | S754_nan => lit "NaN"
  | S754_finite _ _ _ => lit "?"
  end.

Fixpoint json_value (ensure_ascii : bool) (v : pyval) : str :=
  match v with
  | PNone => lit "null"
  | PBool true => lit "true"
  | PBool false => lit "false"
  | PInt z => decimal z
  | PFloat f => json_float f
  | PStr s => json_string ensure_ascii s
  | PList l =>
      lit "[" ++
      (fix items (l : list pyval) : str :=
         match l with
         | [] => []
         | [x] => json_value ensure_ascii x
         | x :: r => json_value ensure_ascii x ++ lit ", " ++ items r
         end) l ++ lit "]"
  | PDict d =>
      lit "{" ++
      (fix items (d : list (str * pyval)) : str :=
         match d with
         | [] => []
         | [(k, x)] =>
             json_string ensure_ascii k ++ lit ": " ++ json_value ensure_ascii x
         | (k, x) :: r =>
             json_string ensure_ascii k ++ lit ": " ++ json_value ensure_ascii x
               ++ lit ", " ++ items r
         end) d ++ lit "}"
  end.

(** Floats, lists and dicts are shown as [?]: no example formats one. *)
Definition format_value (v : pyval) : str :=
  match v with
  | PNone => lit "None"
  | PBool true => lit "True"
  | PBool false => lit "False"
  | PInt z => decimal z
  | PStr s => s
  | _ => lit "?"
  end.

#[export] Instance runtime : PyRuntime :=
  {| str_lower := map ascii_lower;
     str_isspace := ascii_isspace;
     py_format := format_value;
     json_dumps := fun ensure_ascii d => json_value ensure_ascii (PDict d) |}.

(** Geometries are kept as the input they were made from. *)
Inductive geometry :=
| FromMapping (d : dict)
| FromText (s : str).

Fixpoint starts_with (p s : str) : bool :=
  match p, s with
  | [], _ => true
  | a :: p', b :: s' => (a =? b) && starts_with p' s'
  | _ :: _, [] => false
  end.

Definition geojson_types : list str :=
  map lit ["point"; "linestring"; "linearring"; "polygon"; "multipoint";
           "multilinestring"; "multipolygon"]%string.

Definition wkt_keywords : list str :=
  map lit ["POINT"; "LINESTRING"; "LINEARRING"; "POLYGON"; "MULTIPOINT";
           "MULTILINESTRING"; "MULTIPOLYGON"; "GEOMETRYCOLLECTION"]%string.

(** [shape] accepts a mapping with a known type tag and a list of
    coordinates; [wkt_loads] a text that begins with a WKT keyword. *)
#[export] Instance shapely : Shapely :=
  {| Geometry := geometry;
     shape := fun d =>
       match dict_get d (lit "type"), dict_get d (lit "coordinates") with
       | PStr t, PList _ =>
           if existsb (fun k => bool_decide (k = map ascii_lower t)) geojson_types
           then Some (FromMapping d) else None
       | _, _ => None
       end;
     wkt_loads := fun s =>
       if existsb (fun k => starts_with k (lstrip_with ascii_isspace s)) wkt_keywords
       then Some (FromText s) else None |}.

(** Every write succeeds. *)
#[export] Instance sink : Sink := {| to_file := fun _ _ => Written |}.

(** An NVDB with the catalog [ot] that answers the query for the integer
    id [i] with [answers i]. *)
Definition upstream (ot : list dict) (answers : Z -> query) : Upstream :=
  {| nvdbObjekttyper := Some ot;
     nvdbFagdata := fun objtype_id _ =>
       match objtype_id with
       | PInt i => answers i
       | _ => QueryRaises
       end |}.

(** [yields l]: an iteration over the records [l] that then stops. *)
Fixpoint yields (l : list dict) : result_iter :=
  match l with
  | [] => IterStop
  | obj :: r => IterYield obj (yields r)
  end.

(** Catalog entries and records for the examples. *)
Definition objtype (id : Z) (navn : string) (flags : dict) : dict :=
  [(lit "id", PInt id); (lit "navn", PStr (lit navn))] ++ flags.

Definition flagged : dict := [(lit "harGeometri", PBool true)].

(** [{"id": id, "geometri": {"type": "Point", "coordinates": [10, 70]}}] *)
Definition point_record (id : Z) : dict :=
  [(lit "id", PInt id);
   (lit "geometri", PDict [(lit "type", PStr (lit "Point"));
                           (lit "coordinates", PList [PInt 10; PInt 70])])].

(** [{"id": id, "geometri": text}] *)
Definition text_record (id : Z) (text : string) : dict :=
  [(lit "id", PInt id); (lit "geometri", PStr (lit text))].

(** Type 10 has one record of each kind, the last without geometry;
    type 40 yields one good record and then raises; the query for type
    60 cannot be set up; every other type has one record. *)
Definition answers (i : Z) : query :=
  if (i =? 10)%Z then
    QueryReady (yields [point_record 1; text_record 2 EmptyString;
                        text_record 3 "INVALID_WKT_@@@"; [(lit "id", PInt 4)]])
  else if (i =? 40)%Z then QueryReady (IterYield (point_record 5) IterRaise)
  else if (i =? 60)%Z then QueryRaises
  else QueryReady (yields [text_record i "POINT (1 2)"]).

Definition skred : dict := objtype 10 "Skred" flagged.
Definition tunnel : dict := objtype 40 "Tunnel" flagged.
Definition kum : dict := objtype 50 "Kum" [].
Definition rekkverk : dict := objtype 20 "Rekkverk" [(lit "har_geometri", PBool true)].
(** [harGeometri] is false and [har_geometri] is true. *)
Definition bru : dict :=
  objtype 30 "Bru" [(lit "harGeometri", PBool false); (lit "har_geometri", PBool true)].
(** Two names with the same sanitized form. *)
Definition a_b : dict := objtype 1 "A B" flagged.
Definition a_dash_b : dict := objtype 2 "a-b" flagged.

(** A mapping whose coordinates are not a list, with the geometry as
    text beside them. *)
Definition mixed_geometry : dict :=
  [(lit "type", PStr (lit "Point")); (lit "coordinates", PStr (lit "10,70"));
   (lit "wkt", PStr (lit "POINT (10 70)"))].
End Sample.

(* ===================================================================== *)
(** * Shapes of names, rows and runs *)
(* ===================================================================== *)

(** Some two neighbouring characters of [s] both satisfy [p]. *)
Fixpoint adjacent (p : codepoint -> bool) (s : str) : bool :=
  match s with
  | [] => false
  | a :: r => match r with b :: _ => p a && p b | [] => false end || adjacent p r
  end.

(** The first, the last character of [s] satisfies [p]. *)
Definition begins_with (p : codepoint -> bool) (s : str) : bool :=
  if head s is Some c then p c else false.

Definition ends_with (p : codepoint -> bool) (s : str) : bool :=
  if last s is Some c then p c else false.

(** No underscore at either end and no two underscores in a row. *)
Definition tidy (s : str) : Prop :=
  begins_with is_underscore s = false /\
  ends_with is_underscore s = false /\
  adjacent is_underscore s = false.

(** The two facts about [str.lower] and [str.strip] that make a string of
    lowercase letters, digits and underscores pass through them
    unchanged. *)
Definition lower_fixes_layer_chars {rt : PyRuntime} : Prop :=
  forall s, Forall (fun c => layer_char c = true) s -> str_lower s = s.

Definition no_layer_char_is_space {rt : PyRuntime} : Prop :=
  forall c, layer_char c = true -> str_isspace c = false.

Section RowShapes.
Context {rt : PyRuntime} {geo : Shapely}.
Variable cfg : settings.

(** The row the loop body appends for [obj], if it appends one. *)
Definition row_of (objtype_id objtype_name : pyval) (obj : dict) : option row :=
  let geom := dict_get obj (lit "geometri") in
  if truthy geom then build_row cfg objtype_id objtype_name obj <$> parse_geometry geom
  else None.

(** The number of rows held by a list of written layers. *)
Definition rows_total (ws : list layer_write) : nat :=
  sum_list_with (fun w => length (w_rows w)) ws.

(** The mode of the write at position [i] of the file's history: [w]
    only at the first position, [a] only after it. *)
Definition mode_fits (i : nat) (w : layer_write) : Prop :=
  match w_mode w with
  | Some ModeW => i = 0
  | Some ModeA => i <> 0
  | None => True
  end.

(** All rows of the layer carry one type id and one type name. *)
Definition one_type (w : layer_write) : Prop :=
  exists objtype_id objtype_name,
    Forall (fun r => r_objekttype r = objtype_id /\
                     r_objekttype_navn r = objtype_name) (w_rows w).
End RowShapes.

Section RunShapes.
Context {rt : PyRuntime} {geo : Shapely}.
Variable cfg : settings.

(** What holds of the run-level variables after every iteration. *)
Definition run_ok (st : run_state) : Prop :=
  Forall (fun w => w_crs w = CRS cfg /\ w_rows w <> [] /\ one_type w) (outfile st) /\
  (forall i w, outfile st !! i = Some w -> mode_fits i w) /\
  total_features st = rows_total (outfile st) /\
  failed_types st + length (outfile st) <= length (queried st).
End RunShapes.

(* ===================================================================== *)
(** * The name of the output file *)
(* ===================================================================== *)









(** Data for further examples. *)
Module Cases.
(** A catalog entry without a name, and one whose name is a number. *)
Definition unnamed : dict := [(lit "id", PInt 70); (lit "harGeometri", PBool true)].
Definition numbered : dict :=
  [(lit "id", PInt 80); (lit "navn", PInt 5); (lit "harGeometri", PBool true)].

(** A mapping that is GeoJSON and carries a text as well. *)
Definition point_with_text : dict :=
  [(lit "type", PStr (lit "Point")); (lit "coordinates", PList [PInt 10; PInt 70]);
   (lit "wkt", PStr (lit "POINT (1 2)"))].

(** A mapping with a number under [wkt] and a text under [WKT]. *)
Definition hidden_text : dict :=
  [(lit "wkt", PInt 5); (lit "WKT", PStr (lit "POINT (1 2)"))].

(** A type for which the query cannot be set up, and one whose two
    records have no usable geometry. *)
Definition bom : dict := Sample.objtype 60 "Bom" Sample.flagged.
Definition stikkrenne : dict := Sample.objtype 90 "Stikkrenne" Sample.flagged.

Definition answers (i : Z) : query :=
  if (i =? 90)%Z then
    QueryReady (Sample.yields [Sample.text_record 1 "INVALID_WKT_@@@";
                               [(lit "id", PInt 2)]])
  else Sample.answers i.

(** A [to_file] that does not know [mode]. *)
Definition old_sink : Sink (geo := Sample.shapely) :=
  {| to_file := fun _ w => if w_mode w is Some _ then RaisesTypeError else Written |}.

End Cases.

(** Evaluation of closed side conditions. *)
Ltac by_eval := vm_compute; first [reflexivity | discriminate | done].
Ltac eval_ne := let E := fresh in intros; intros E; vm_compute in E; discriminate E.

(* ===================================================================== *)
(** * Facts about the string operations *)
(* ===================================================================== *)

Section StringFacts.
Variable P : codepoint -> Prop.

Lemma lstrip_with_Forall p s : Forall P s -> Forall P (lstrip_with p s).
Proof.
  induction 1 as [|c r Hc Hr IH]; simpl; [constructor|].
  destruct (p c); [exact IH | by constructor].
Qed.

Lemma strip_with_Forall p s : Forall P s -> Forall P (strip_with p s).
Proof.
  intros Hs. unfold strip_with, rstrip_with.
  apply Forall_reverse, lstrip_with_Forall, Forall_reverse.
  by apply lstrip_with_Forall.
Qed.

(** What [re.sub] leaves is made of the replacement and of the
    characters outside the class. *)
Lemma re_sub_runs_Forall cls repl b s :
  Forall P repl ->
  Forall (fun c => cls c = false -> P c) s ->
  Forall P (re_sub_runs cls repl b s).
Proof.
  intros Hrepl Hs. revert b.
  induction Hs as [|c r Hc Hr IH]; intros b; simpl; [constructor|].
  destruct (cls c) eqn:Ec.
  - apply Forall_app. split; [destruct b; [constructor | exact Hrepl] | apply IH].
  - constructor; [by apply Hc | apply IH].
Qed.
End StringFacts.

Lemma layer_name_okb_spec s : layer_name_okb s = true <-> layer_name_ok s.
Proof.
  unfold layer_name_okb, layer_name_ok.
  rewrite !andb_true_iff, forallb_forall, Forall_forall.
  rewrite Nat.leb_le, Nat.leb_le.
  setoid_rewrite <- list_elem_of_In. tauto.
Qed.

(* ===================================================================== *)
(** * The layer name sanitizer *)
(* ===================================================================== *)

Section SanitizerFacts.
Context {rt : PyRuntime}.

(** Whatever [lower] and [strip] do, the two substitutions leave only
    characters of the class. *)
Lemma sanitize_chars name : Forall (fun c => layer_char c = true) (sanitize name).
Proof.
  unfold sanitize, re_sub_plus.
  apply strip_with_Forall, re_sub_runs_Forall.
  - by constructor.
  - apply Forall_forall. intros c Hc _. revert c Hc. apply Forall_forall.
    apply re_sub_runs_Forall; [by constructor|].
    apply Forall_forall. intros c _ Hc. by apply negb_false_iff in Hc.
Qed.

Lemma safe_layer_name_length name fallback :
  length (safe_layer_name name fallback) <= 50.
Proof. unfold safe_layer_name. rewrite length_take. lia. Qed.

Lemma take_ok s :
  s <> [] -> Forall (fun c => layer_char c = true) s -> layer_name_ok (take 50 s).
Proof.
  intros Hne Hs. split; [|by apply Forall_take].
  rewrite length_take. destruct s; [done|]. cbn [length]. lia.
Qed.

(** C1 (amended).  The output never exceeds 50 characters.  It matches
    [^[a-z0-9_]{1,50}$] whenever sanitizing the name (the fallback, when
    the name is empty) leaves at least one character, and whenever the
    fallback is itself a non-empty string of lowercase letters, digits
    and underscores, as [objtype_<integer id>] is; with such a fallback,
    a name that sanitizes to nothing is replaced by the fallback, cut
    to 50 characters. *)
Theorem safe_layer_name_spec (name fallback : str) :
  let raw := if bool_decide (name = []) then fallback else name in
  length (safe_layer_name name fallback) <= 50 /\
  (sanitize raw <> [] ->
     safe_layer_name name fallback = take 50 (sanitize raw) /\
     layer_name_ok (safe_layer_name name fallback)) /\
  (fallback <> [] -> Forall (fun c => layer_char c = true) fallback ->
     layer_name_ok (safe_layer_name name fallback) /\
     (sanitize raw = [] -> safe_layer_name name fallback = take 50 fallback)).
Proof.
  intros raw. split; [apply safe_layer_name_length|].
  unfold safe_layer_name. fold raw.
  pose proof (sanitize_chars raw) as Hchars.
  split.
  - intros Hne. rewrite bool_decide_eq_false_2 by done.
    split; [done | by apply take_ok].
  - intros Hne Hfb. split.
    + case_bool_decide; by apply take_ok.
    + intros ->. by rewrite bool_decide_eq_true_2.
Qed.
End SanitizerFacts.

(** The name [Skred] gives [skred]; a name made of symbols only gives the
    caller's fallback for the id 10. *)
Lemma safe_layer_name_spec_witness :
  safe_layer_name (rt := Sample.runtime) (lit "Skred") (lit "objtype_10") = lit "skred" /\
  layer_name_ok (safe_layer_name (rt := Sample.runtime) (lit "Skred") (lit "objtype_10")) /\
  safe_layer_name (rt := Sample.runtime) (lit "@@@") (lit "objtype_10") = lit "objtype_10" /\
  layer_name_ok (safe_layer_name (rt := Sample.runtime) (lit "@@@") (lit "objtype_10")).
Proof.
  destruct (safe_layer_name_spec (rt := Sample.runtime) (lit "Skred") (lit "objtype_10"))
    as (_ & Hname & _).
  destruct Hname as [Heq Hok]; [eval_ne|].
  destruct (safe_layer_name_spec (rt := Sample.runtime) (lit "@@@") (lit "objtype_10"))
    as (_ & _ & Hfallback).
  destruct Hfallback as [Hok' Hsubst]; [discriminate | by repeat constructor |].
  split; [rewrite Heq; reflexivity|]. split; [exact Hok|].
  split; [apply Hsubst; reflexivity | exact Hok'].
Defined.

(** C1 fails as stated: under a name that sanitizes to nothing, the
    fallback [A B] gives a layer name with a capital and a space, and an
    empty name with an empty fallback gives an empty layer name. *)
Lemma safe_layer_name_counterexample :
  safe_layer_name (rt := Sample.runtime) (lit "@@@") (lit "A B") = lit "A B" /\
  ~ layer_name_ok (safe_layer_name (rt := Sample.runtime) (lit "@@@") (lit "A B")) /\
  ~ layer_name_ok (safe_layer_name (rt := Sample.runtime) [] []).
Proof.
  split; [reflexivity|].
  split; intros Hok; apply layer_name_okb_spec in Hok; discriminate Hok.
Qed.

(* ===================================================================== *)
(** * The geometry normalizer *)
(* ===================================================================== *)

Section NormalizerFacts.
Context {rt : PyRuntime} {geo : Shapely}.

Lemma parse_geometry_falsy geom :
  truthy geom = false -> parse_geometry geom = None.
Proof. intros Hf. unfold parse_geometry. by rewrite Hf. Qed.

(** Case C: a string goes to [wkt.loads] as it is, unless it is blank. *)
Lemma parse_geometry_text s :
  parse_geometry (PStr s) =
    if bool_decide (strip_with str_isspace s = []) then None else wkt_loads s.
Proof.
  unfold parse_geometry, loads_text. simpl.
  destruct s as [|c s]; simpl; [done|].
  by case_bool_decide.
Qed.

(** So a serializer [to_wkt] that [wkt.loads] inverts is inverted by the
    normalizer too, wherever its text is not blank. *)
Lemma parse_geometry_inverts (to_wkt : Geometry -> str) g :
  strip_with str_isspace (to_wkt g) <> [] ->
  wkt_loads (to_wkt g) = Some g ->
  parse_geometry (PStr (to_wkt g)) = Some g.
Proof.
  intros Hblank Hloads. rewrite parse_geometry_text.
  by rewrite bool_decide_eq_false_2.
Qed.

Lemma parse_geometry_scalar geom :
  (forall d, geom <> PDict d) -> (forall s, geom <> PStr s) ->
  parse_geometry geom = None.
Proof.
  intros Hd Hs. unfold parse_geometry.
  destruct geom; try by destruct (negb _).
  - by destruct (Hs s).
  - by destruct (Hd d).
Qed.

(** Case A succeeded. *)
Lemma parse_geometry_shape d t g :
  dict_get d (lit "type") = PStr t ->
  dict_get d (lit "coordinates") <> PNone ->
  shape d = Some g ->
  parse_geometry (PDict d) = Some g.
Proof.
  intros Ht Hc Hshape. unfold parse_geometry.
  destruct d as [|kv d]; [done|]. cbn [truthy negb].
  rewrite Ht. cbn [is_str andb].
  destruct (dict_get _ (lit "coordinates")); cbn [is_none negb]; by rewrite ?Hshape.
Qed.

(** Case A failed or was not tried: the result is that of case B. *)
Lemma parse_geometry_case_b d :
  d <> [] ->
  (is_str (dict_get d (lit "type")) && negb (is_none (dict_get d (lit "coordinates")))
     = true -> shape d = None) ->
  parse_geometry (PDict d) =
    loads_text (py_or (dict_get d (lit "wkt")) (dict_get d (lit "WKT"))).
Proof.
  intros Hne Hshape. unfold parse_geometry.
  destruct d as [|kv d]; [done|]. cbn [truthy negb].
  destruct (is_str _ && negb _); [by rewrite Hshape|done].
Qed.

(** C6.  Let [d] be a mapping with a string under [type] and a value
    other than [None] under [coordinates], on which [shape] raises.
    Then [parse_geometry] does not stop there: its result is the result
    of the WKT attempt on [d.get("wkt") or d.get("WKT")].  So a
    non-blank text under [wkt] is handed to [wkt.loads]; failing a
    truthy [wkt] entry, a non-blank text under [WKT] is; and [None]
    comes out only if no text is found under the two keys or
    [wkt.loads] raises on it. *)
Theorem parse_geometry_falls_through (d : dict) (t : str) :
  dict_get d (lit "type") = PStr t ->
  dict_get d (lit "coordinates") <> PNone ->
  shape d = None ->
  parse_geometry (PDict d) =
    loads_text (py_or (dict_get d (lit "wkt")) (dict_get d (lit "WKT"))) /\
  (forall s, dict_get d (lit "wkt") = PStr s ->
     strip_with str_isspace s <> [] ->
     parse_geometry (PDict d) = wkt_loads s) /\
  (forall s, truthy (dict_get d (lit "wkt")) = false ->
     dict_get d (lit "WKT") = PStr s ->
     strip_with str_isspace s <> [] ->
     parse_geometry (PDict d) = wkt_loads s) /\
  (truthy (dict_get d (lit "wkt")) = false ->
     truthy (dict_get d (lit "WKT")) = false ->
     parse_geometry (PDict d) = None) /\
  (parse_geometry (PDict d) = None <->
     forall s, py_or (dict_get d (lit "wkt")) (dict_get d (lit "WKT")) = PStr s ->
       strip_with str_isspace s = [] \/ wkt_loads s = None).
Proof.
  intros Ht Hc Hshape.
  assert (d <> []) as Hne by (intros ->; discriminate Ht).
  assert (parse_geometry (PDict d) =
    loads_text (py_or (dict_get d (lit "wkt")) (dict_get d (lit "WKT")))) as Heq.
  { apply parse_geometry_case_b; [done | by intros _]. }
  split; [exact Heq|]. rewrite Heq. clear Heq.
  assert (forall s, strip_with str_isspace s <> [] ->
            loads_text (PStr s) = wkt_loads s) as Hloads.
  { intros s Hs. unfold loads_text. cbn [truthy].
    by rewrite bool_decide_eq_false_2. }
  split; [|split; [|split]].
  - intros s Hwkt Hs. unfold py_or. rewrite Hwkt. cbn [truthy].
    assert (s <> []) as Hs' by (intros ->; by apply Hs).
    rewrite bool_decide_eq_false_2 by done. by apply Hloads.
  - intros s Hwkt HWKT Hs. unfold py_or. rewrite Hwkt, HWKT. by apply Hloads.
  - intros Hwkt HWKT. unfold py_or. rewrite Hwkt.
    destruct (dict_get d (lit "WKT")); try done.
    unfold loads_text. cbn [truthy] in *.
    apply negb_false_iff, bool_decide_eq_true in HWKT. by subst.
  - destruct (py_or _ _) as [| | | |s| |]; try (split; [intros _ s' Hs'|]; done).
    unfold loads_text. cbn [truthy]. split.
    + intros Hnone s' [= <-]. case_bool_decide; [by left | by right].
    + intros Hs. destruct (Hs s eq_refl) as [->| ->]; [done|].
      by destruct (negb _).
Qed.
End NormalizerFacts.

(* ===================================================================== *)
(** * The per-type fetch loop *)
(* ===================================================================== *)

Lemma dict_get_absent (d : dict) (k : str) :
  dict_has d k = false -> dict_get d k = PNone.
Proof.
  unfold dict_has. induction d as [|[k' v] d IH]; simpl; [done|].
  intros [Hk Hd]%orb_false_iff. rewrite Hk. by apply IH.
Qed.

Lemma dict_get_pop_ne (d : dict) (k k' : str) :
  k' <> k -> dict_get (dict_pop d k) k' = dict_get d k'.
Proof.
  intros Hne. unfold dict_pop. induction d as [|[k0 v] d IH]; [done|].
  rewrite filter_cons. simpl. case_decide as Hk0; simpl.
  - by rewrite IH.
  - subst k0. by rewrite bool_decide_eq_false_2.
Qed.

Lemma dict_has_pop (d : dict) (k : str) : dict_has (dict_pop d k) k = false.
Proof.
  unfold dict_has, dict_pop. induction d as [|[k0 v] d IH]; [done|].
  rewrite filter_cons. simpl. case_decide as Hk0; simpl; [|done].
  by rewrite IH, bool_decide_eq_false_2.
Qed.

Section FetchFacts.
Context {rt : PyRuntime} {geo : Shapely}.
Variable cfg : settings.
Variables objtype_id objtype_name : pyval.

Abbreviation step := (fetch_step cfg objtype_id objtype_name).
Abbreviation loop := (fetch_loop cfg objtype_id objtype_name).
Abbreviation geometri obj := (dict_get obj (lit "geometri")).

(** C3 (amended).  A record without the key [geometri] has the value
    [None] there.  Every falsy value — [None], and also the empty
    string, an empty mapping or list, zero, [False] — makes
    [parse_geometry] return [None] and is counted as skipped-no-geometry.
    Every truthy value that is neither a mapping nor a string makes
    [parse_geometry] return [None] and is counted as
    skipped-bad-geometry, not as skipped-no-geometry.  The normalizer
    returns the same [None] in both cases; the loop tells them apart by
    the truth value of the raw field. *)
Theorem fetch_step_skips (st : fetch_state) (obj : dict) :
  (dict_has obj (lit "geometri") = false -> geometri obj = PNone) /\
  (truthy (geometri obj) = false ->
     parse_geometry (geometri obj) = None /\
     skipped_no_geom (step st obj) = skipped_no_geom st + 1 /\
     skipped_bad_geom (step st obj) = skipped_bad_geom st /\
     rows (step st obj) = rows st) /\
  (truthy (geometri obj) = true ->
     (forall d, geometri obj <> PDict d) ->
     (forall s, geometri obj <> PStr s) ->
     parse_geometry (geometri obj) = None /\
     skipped_bad_geom (step st obj) = skipped_bad_geom st + 1 /\
     skipped_no_geom (step st obj) = skipped_no_geom st /\
     rows (step st obj) = rows st).
Proof.
  split; [apply dict_get_absent|]. unfold fetch_step. split.
  - intros Hf. rewrite Hf. by rewrite parse_geometry_falsy.
  - intros Ht Hd Hs. rewrite Ht, parse_geometry_scalar by done. done.
Qed.

Lemma fetch_step_bucket st obj :
  fetched (step st obj) = fetched st + 1 /\
  length (rows (step st obj)) =
    length (rows st) + (if in_bucket Built obj then 1 else 0) /\
  skipped_no_geom (step st obj) =
    skipped_no_geom st + (if in_bucket NoGeom obj then 1 else 0) /\
  skipped_bad_geom (step st obj) =
    skipped_bad_geom st + (if in_bucket BadGeom obj then 1 else 0).
Proof.
  unfold fetch_step, in_bucket, bucket_of.
  destruct (negb (truthy (geometri obj))); simpl; [lia|].
  destruct (parse_geometry (geometri obj)); simpl; rewrite ?length_app; simpl; lia.
Qed.

Lemma in_bucket_once obj :
  (if in_bucket Built obj then 1 else 0) + (if in_bucket NoGeom obj then 1 else 0)
    + (if in_bucket BadGeom obj then 1 else 0) = 1.
Proof. unfold in_bucket. by destruct (bucket_of obj). Qed.

Lemma count_in_total l :
  count_in Built l + count_in NoGeom l + count_in BadGeom l = length l.
Proof.
  unfold count_in. induction l as [|obj l IH]; [done|]. cbn [List.filter].
  pose proof (in_bucket_once obj).
  destruct (in_bucket Built obj), (in_bucket NoGeom obj), (in_bucket BadGeom obj);
    cbn [length] in *; lia.
Qed.

Lemma fetch_loop_raises st it : iter_raises it = true -> loop st it = None.
Proof. revert st. induction it; intros st; simpl; [done| |done]. by auto. Qed.

Lemma fetch_loop_counts st it :
  iter_raises it = false ->
  exists fs, loop st it = Some fs /\
    fetched fs = fetched st + length (iter_records it) /\
    length (rows fs) = length (rows st) + count_in Built (iter_records it) /\
    skipped_no_geom fs = skipped_no_geom st + count_in NoGeom (iter_records it) /\
    skipped_bad_geom fs = skipped_bad_geom st + count_in BadGeom (iter_records it).
Proof.
  revert st. induction it as [|obj rest IH|]; intros st Hr; simpl in *.
  - exists st. unfold count_in. simpl. split; [done | lia].
  - destruct (IH (step st obj) Hr) as (fs & -> & Hf & Hb & Hn & Hg).
    exists fs. split; [done|].
    destruct (fetch_step_bucket st obj) as (Hf' & Hb' & Hn' & Hg').
    unfold count_in in *. cbn [iter_records List.filter].
    destruct (in_bucket Built obj), (in_bucket NoGeom obj), (in_bucket BadGeom obj);
      cbn [length]; lia.
  - done.
Qed.

(** C5.  When the iteration ends without an exception the loop returns,
    and every fetched record has been counted in exactly one of the
    three buckets: [fetched] is the number of records, the rows are the
    records with a truthy geometry field that parses, [skipped_no_geom]
    those with a falsy field, [skipped_bad_geom] those with a truthy
    field that does not parse; so
    [fetched = len(rows) + skipped_no_geom + skipped_bad_geom]. *)
Theorem fetch_loop_partition (it : result_iter) :
  iter_raises it = false ->
  exists fs, loop fetch_init it = Some fs /\
    fetched fs = length (iter_records it) /\
    length (rows fs) = count_in Built (iter_records it) /\
    skipped_no_geom fs = count_in NoGeom (iter_records it) /\
    skipped_bad_geom fs = count_in BadGeom (iter_records it) /\
    fetched fs = length (rows fs) + skipped_no_geom fs + skipped_bad_geom fs.
Proof.
  intros Hr. destruct (fetch_loop_counts fetch_init it Hr) as (fs & -> & Hf & Hb & Hn & Hg).
  exists fs. simpl in *. pose proof (count_in_total (iter_records it)).
  repeat split; lia.
Qed.

(** C7.  With the properties option on, a record whose geometry parses
    adds one row, and the row's [properties] is
    [json.dumps(.., ensure_ascii=False)] of the record's items without
    those under [geometri]: the key [geometri] is gone, every other key
    keeps its value, and the items that stay keep their order. *)
Theorem row_properties (st : fetch_state) (obj : dict) (g : Geometry) :
  INCLUDE_PROPERTIES_AS_JSON cfg = true ->
  truthy (geometri obj) = true ->
  parse_geometry (geometri obj) = Some g ->
  let rest := dict_pop obj (lit "geometri") in
  exists r, rows (step st obj) = rows st ++ [r] /\
    r = build_row cfg objtype_id objtype_name obj g /\
    r_geometry r = g /\
    r_properties r = Some (json_dumps false rest) /\
    dict_has rest (lit "geometri") = false /\
    (forall k, k <> lit "geometri" -> dict_get rest k = dict_get obj k) /\
    (forall k v, (k, v) ∈ rest <-> (k, v) ∈ obj /\ k <> lit "geometri") /\
    sublist rest obj.
Proof.
  intros Hcfg Ht Hg rest. eexists. split; [|split; [reflexivity|]].
  - unfold fetch_step. by rewrite Ht, Hg.
  - unfold build_row, properties_of. rewrite Hcfg. simpl.
    split; [done|]. split; [done|]. split; [apply dict_has_pop|].
    split; [intros k Hk; by apply dict_get_pop_ne|].
    split; [|apply sublist_filter].
    intros k v. unfold rest, dict_pop. rewrite list_elem_of_filter. simpl. tauto.
Qed.
End FetchFacts.

(** [shape] raises on coordinates that are a text; the text under [wkt]
    is parsed instead. *)
Lemma parse_geometry_falls_through_witness :
  parse_geometry (rt := Sample.runtime) (geo := Sample.shapely)
    (PDict Sample.mixed_geometry)
  = Some (Sample.FromText (lit "POINT (10 70)")).
Proof.
  destruct (parse_geometry_falls_through (rt := Sample.runtime) (geo := Sample.shapely)
              Sample.mixed_geometry (lit "Point")) as (_ & Hwkt & _).
  - reflexivity.
  - eval_ne.
  - reflexivity.
  - rewrite (Hwkt (lit "POINT (10 70)")); [reflexivity | reflexivity | eval_ne].
Defined.

(** A record without [geometri] is skipped for want of geometry, one
    whose [geometri] is the number 5 for bad geometry. *)
Lemma fetch_step_skips_witness :
  skipped_no_geom
    (fetch_step (rt := Sample.runtime) (geo := Sample.shapely) default_settings
       (PInt 10) (PStr (lit "Skred")) fetch_init [(lit "id", PInt 4)]) = 1 /\
  skipped_bad_geom
    (fetch_step (rt := Sample.runtime) (geo := Sample.shapely) default_settings
       (PInt 10) (PStr (lit "Skred")) fetch_init [(lit "geometri", PInt 5)]) = 1.
Proof.
  split.
  - destruct (fetch_step_skips (rt := Sample.runtime) (geo := Sample.shapely)
                default_settings (PInt 10) (PStr (lit "Skred")) fetch_init
                [(lit "id", PInt 4)]) as (_ & Hfalsy & _).
    destruct Hfalsy as (_ & -> & _); reflexivity.
  - destruct (fetch_step_skips (rt := Sample.runtime) (geo := Sample.shapely)
                default_settings (PInt 10) (PStr (lit "Skred")) fetch_init
                [(lit "geometri", PInt 5)]) as (_ & _ & Htruthy).
    destruct Htruthy as (_ & -> & _); [reflexivity | eval_ne | eval_ne | reflexivity].
Defined.

(** C3 fails as stated: the empty string is neither [None], nor a
    mapping, nor a non-empty string, and the record that carries it is
    counted as skipped-no-geometry, not as skipped-bad-geometry. *)
Lemma fetch_step_skips_counterexample :
  let obj := [(lit "id", PInt 2); (lit "geometri", PStr [])] in
  let st := fetch_step (rt := Sample.runtime) (geo := Sample.shapely)
              default_settings (PInt 10) (PStr (lit "Skred")) fetch_init obj in
  dict_get obj (lit "geometri") = PStr [] /\
  skipped_bad_geom st = 0 /\ skipped_no_geom st = 1.
Proof. by_eval. Qed.

(** The four records of type 10: one row, two without geometry, one with
    bad geometry. *)
Lemma fetch_loop_partition_witness :
  exists fs,
    fetch_loop (rt := Sample.runtime) (geo := Sample.shapely) default_settings
      (PInt 10) (PStr (lit "Skred")) fetch_init
      (Sample.yields [Sample.point_record 1; Sample.text_record 2 EmptyString;
                      Sample.text_record 3 "INVALID_WKT_@@@"; [(lit "id", PInt 4)]])
    = Some fs /\
    fetched fs = 4 /\ length (rows fs) = 1 /\
    skipped_no_geom fs = 2 /\ skipped_bad_geom fs = 1.
Proof.
  destruct (fetch_loop_partition (rt := Sample.runtime) (geo := Sample.shapely)
              default_settings (PInt 10) (PStr (lit "Skred"))
              (Sample.yields [Sample.point_record 1; Sample.text_record 2 EmptyString;
                              Sample.text_record 3 "INVALID_WKT_@@@"; [(lit "id", PInt 4)]]))
    as (fs & Hloop & Hf & Hb & Hn & Hg & _); [reflexivity|].
  exists fs. rewrite Hloop, Hf, Hb, Hn, Hg. by_eval.
Defined.

(** The row of [{"id": 1, "geometri": {..}}] has the properties text
    [{"id": 1}]. *)
Lemma row_properties_witness :
  exists r,
    rows (fetch_step (rt := Sample.runtime) (geo := Sample.shapely) default_settings
            (PInt 10) (PStr (lit "Skred")) fetch_init (Sample.point_record 1)) = [r] /\
    r_properties r =
      Some (lit "{" ++ [Sample.quote] ++ lit "id" ++ [Sample.quote] ++ lit ": 1}").
Proof.
  destruct (row_properties (rt := Sample.runtime) (geo := Sample.shapely)
              default_settings (PInt 10) (PStr (lit "Skred")) fetch_init
              (Sample.point_record 1)
              (Sample.FromMapping
                 [(lit "type", PStr (lit "Point"));
                  (lit "coordinates", PList [PInt 10; PInt 70])]))
    as (r & Hrows & _ & _ & Hprops & _); [reflexivity | reflexivity | reflexivity |].
  exists r. split; [exact Hrows | rewrite Hprops; reflexivity].
Defined.

(* ===================================================================== *)
(** * The run *)
(* ===================================================================== *)

Section RunFacts.
Context {rt : PyRuntime} {geo : Shapely} {snk : Sink} {api : Upstream}.
Variable cfg : settings.

Abbreviation flag o := (dict_get o (lit "harGeometri")).
Abbreviation flag' o := (dict_get o (lit "har_geometri")).

Lemma has_geometry_spec o :
  has_geometry o = true <->
  truthy (flag o) = true \/ (flag o = PNone /\ truthy (flag' o) = true).
Proof.
  unfold has_geometry. destruct (flag o); simpl; intuition congruence.
Qed.

Lemma write_layer_cases st layer fs :
  (exists w, write_layer cfg st layer fs = Continue (count_written st fs w) /\
             w_layer w = layer /\ w_rows w = rows fs) \/
  write_layer cfg st layer fs = Uncaught st.
Proof.
  unfold write_layer.
  destruct (to_file _ _); [left; by eexists | | by right].
  destruct (to_file _ _); [left; by eexists | by right | by right].
Qed.

(** What one iteration does to the two traces. *)
Lemma process_type_traces st o :
  let st' := final_state (process_type cfg st o) in
  (queried st' = queried st ++
     (if layer_of o is Some _ then [objtype_id_of o] else [])) /\
  (outfile st' = outfile st \/
   exists w, outfile st' = outfile st ++ [w] /\ layer_of o = Some (w_layer w)
             /\ w_rows w <> []).
Proof.
  unfold process_type.
  destruct (layer_of o) as [layer|]; simpl; [|by rewrite app_nil_r; auto].
  destruct (nvdbFagdata _ _) as [|it]; simpl; [by auto|].
  destruct (fetch_loop _ _ _ _ _) as [fs|]; simpl; [|by auto].
  case_bool_decide as Hrows; simpl; [by auto|].
  destruct (write_layer_cases (note_query st (objtype_id_of o)) layer fs)
    as [(w & -> & Hl & Hr)| ->]; simpl; [|by auto].
  split; [done|]. right. exists w. rewrite Hl, Hr. done.
Qed.

Lemma process_type_completed st o :
  completed (process_type cfg st o) = true -> is_Some (layer_of o).
Proof.
  unfold process_type. destruct (layer_of o); [by eauto | done].
Qed.

Lemma run_types_queried st objtypes :
  let st' := final_state (run_types cfg st objtypes) in
  (exists attempted, attempted `prefix_of` objtypes /\
     queried st' = queried st ++ map objtype_id_of attempted) /\
  (completed (run_types cfg st objtypes) = true ->
     queried st' = queried st ++ map objtype_id_of objtypes).
Proof.
  revert st. induction objtypes as [|o rest IH]; intros st; simpl.
  { split; [exists []|]; by rewrite app_nil_r. }
  pose proof (process_type_traces st o) as [Hq _].
  pose proof (process_type_completed st o) as Hc.
  destruct (process_type cfg st o) as [st1|st1]; simpl in *.
  - destruct Hc as [layer Hlayer]; [done|]. rewrite Hlayer in Hq.
    destruct (IH st1) as [(attempted & Hpre & Hatt) Hall]. split.
    + exists (o :: attempted). split; [by apply prefix_cons|].
      rewrite Hatt, Hq. simpl. by rewrite <- app_assoc.
    + intros Hdone. rewrite (Hall Hdone), Hq. by rewrite <- app_assoc.
  - split; [|done]. destruct (layer_of o).
    + exists [o]. split; [by apply prefix_cons, prefix_nil | done].
    + exists []. split; [apply prefix_nil | done].
Qed.

Lemma run_types_outfile st objtypes :
  exists ws, outfile (final_state (run_types cfg st objtypes)) = outfile st ++ ws /\
    sublist (map w_layer ws) (omap layer_of objtypes) /\
    Forall (fun w => w_rows w <> []) ws.
Proof.
  revert st. induction objtypes as [|o rest IH]; intros st; simpl.
  { exists []. by rewrite app_nil_r. }
  pose proof (process_type_traces st o) as [_ Ho].
  destruct (process_type cfg st o) as [st1|st1]; simpl in *.
  - destruct (IH st1) as (ws & -> & Hsub & Hrows).
    destruct Ho as [->|(w & -> & -> & Hw)].
    + exists ws. split; [done|]. split; [|done].
      destruct (layer_of o); [by apply sublist_cons | done].
    + exists (w :: ws). rewrite <- app_assoc. split; [done|].
      split; [by apply sublist_skip | by constructor].
  - destruct Ho as [->|(w & -> & -> & Hw)].
    + exists []. rewrite app_nil_r. split; [done|]. split; [apply sublist_nil_l | done].
    + exists [w]. split; [done|].
      split; [apply sublist_skip, sublist_nil_l | by repeat constructor].
Qed.

(** C2.  Let the query for a type be set up and let the iteration over
    its results raise, after any number of records.  Then the loop body
    ends normally, the failed-type counter grows by one, none of the
    three totals changes, the output file is left with exactly the
    layers it had, and the run goes on with the next type from that
    state. *)
Theorem fetch_failure_isolated (st : run_state) (o : dict)
    (it : result_iter) (rest : list dict) :
  is_Some (layer_of o) ->
  nvdbFagdata (objtype_id_of o) (FYLKE cfg) = QueryReady it ->
  iter_raises it = true ->
  exists st',
    process_type cfg st o = Continue st' /\
    failed_types st' = failed_types st + 1 /\
    total_features st' = total_features st /\
    total_skipped_no_geom st' = total_skipped_no_geom st /\
    total_skipped_bad_geom st' = total_skipped_bad_geom st /\
    outfile st' = outfile st /\
    run_types cfg st (o :: rest) = run_types cfg st' rest.
Proof.
  intros [layer Hlayer] Hquery Hraises.
  exists (count_failed (note_query st (objtype_id_of o))).
  assert (process_type cfg st o
          = Continue (count_failed (note_query st (objtype_id_of o)))) as Hstep.
  { unfold process_type. rewrite Hlayer, Hquery.
    by rewrite fetch_loop_raises. }
  split; [exact Hstep|]. simpl. rewrite Hstep. done.
Qed.

(** C4 (amended).  An entry is kept when its flag is truthy, the flag
    being the value under [harGeometri] or, when that is absent or
    [None], the value under [har_geometri]; an entry whose flag is false
    or absent under both spellings is dropped.  In a run that no
    uncaught exception ends early, [nvdbFagdata] is called once for each
    kept entry, in catalog order, and for nothing else; in every run the
    calls made are those for a leading part of the kept entries, so a
    dropped entry is never queried. *)
Theorem attempted_types (ot : list dict) :
  nvdbObjekttyper = Some ot ->
  (forall o, has_geometry o = true <->
     truthy (flag o) = true \/ (flag o = PNone /\ truthy (flag' o) = true)) /\
  (forall o, truthy (flag o) = false -> truthy (flag' o) = false ->
     has_geometry o = false) /\
  (exists attempted, attempted `prefix_of` List.filter has_geometry ot /\
     queried (final_state (main cfg)) = map objtype_id_of attempted) /\
  (completed (main cfg) = true ->
     queried (final_state (main cfg)) = map objtype_id_of (List.filter has_geometry ot) /\
     length (queried (final_state (main cfg))) = length (List.filter has_geometry ot)).
Proof.
  intros Hcat. split; [apply has_geometry_spec|]. split.
  { intros o Hf Hf'. apply not_true_is_false. rewrite has_geometry_spec.
    intros [Ht|[_ Ht]]; congruence. }
  unfold main. rewrite Hcat. unfold select_objtypes.
  destruct (run_types_queried run_init (List.filter has_geometry ot)) as [Hpre Hall].
  split; [exact Hpre|]. intros Hdone. simpl in Hall.
  rewrite (Hall Hdone). by rewrite length_map.
Qed.

(** The layer name of a type is [safe_layer_name] of its name, with the
    fallback [objtype_<id>].  The names of the layers written in a run
    are, in order, a subsequence of the layer names of the kept catalog
    entries, and every written layer holds at least one row.  So the
    written names are pairwise distinct whenever the layer names of the
    kept entries are. *)
Theorem written_layer_names (ot : list dict) :
  nvdbObjekttyper = Some ot ->
  let written := outfile (final_state (main cfg)) in
  let names := omap layer_of (List.filter has_geometry ot) in
  sublist (map w_layer written) names /\
  Forall (fun w => w_rows w <> []) written /\
  (NoDup names -> NoDup (map w_layer written)).
Proof.
  intros Hcat. unfold main. rewrite Hcat. unfold select_objtypes. simpl.
  destruct (run_types_outfile run_init (List.filter has_geometry ot))
    as (ws & -> & Hsub & Hrows). simpl.
  split; [done|]. split; [done|]. intros Hnames. by eapply sublist_NoDup.
Qed.
End RunFacts.

(** After the layer of type 10 is written, type 40 yields a record and
    raises: the type is counted as failed and the file keeps its one
    layer. *)
Lemma fetch_failure_isolated_witness :
  let api := Sample.upstream [Sample.skred; Sample.tunnel; Sample.rekkverk] Sample.answers in
  let st := final_state
              (process_type (rt := Sample.runtime) (geo := Sample.shapely)
                 (snk := Sample.sink) (api := api) default_settings run_init Sample.skred) in
  exists st',
    process_type (rt := Sample.runtime) (geo := Sample.shapely)
      (snk := Sample.sink) (api := api) default_settings st Sample.tunnel = Continue st' /\
    failed_types st' = 1 /\ total_features st' = 1 /\
    outfile st' = outfile st /\ length (outfile st) = 1.
Proof.
  intros api st.
  destruct (fetch_failure_isolated (rt := Sample.runtime) (geo := Sample.shapely)
              (snk := Sample.sink) (api := api) default_settings st Sample.tunnel
              (IterYield (Sample.point_record 5) IterRaise) [Sample.rekkverk])
    as (st' & Hstep & Hfailed & Hfeatures & _ & _ & Hfile & _).
  - by eexists.
  - reflexivity.
  - reflexivity.
  - exists st'. rewrite Hfailed, Hfeatures, Hfile. by_eval.
Defined.

(** Of four catalog entries, the two with a truthy flag are queried. *)
Lemma attempted_types_witness :
  let api := Sample.upstream
               [Sample.skred; Sample.kum; Sample.bru; Sample.rekkverk] Sample.answers in
  queried (final_state (main (rt := Sample.runtime) (geo := Sample.shapely)
                          (snk := Sample.sink) (api := api) default_settings))
  = [PInt 10; PInt 20].
Proof.
  intros api.
  destruct (attempted_types (rt := Sample.runtime) (geo := Sample.shapely)
              (snk := Sample.sink) (api := api) default_settings
              [Sample.skred; Sample.kum; Sample.bru; Sample.rekkverk])
    as (_ & _ & _ & Hall); [reflexivity|].
  destruct Hall as [-> _]; reflexivity.
Defined.

(** C4 fails as stated: an entry with [harGeometri] false and
    [har_geometri] true carries a truthy flag under one of the two
    spellings, and is not queried. *)
Lemma attempted_types_counterexample :
  let api := Sample.upstream [Sample.bru] Sample.answers in
  let run := main (rt := Sample.runtime) (geo := Sample.shapely)
               (snk := Sample.sink) (api := api) default_settings in
  truthy (dict_get Sample.bru (lit "har_geometri")) = true /\
  completed run = true /\ queried (final_state run) = [].
Proof. by_eval. Qed.

(** Three types with distinct layer names; the second one fails. *)
Lemma written_layer_names_example :
  let api := Sample.upstream [Sample.skred; Sample.tunnel; Sample.rekkverk] Sample.answers in
  let written := outfile (final_state
                   (main (rt := Sample.runtime) (geo := Sample.shapely)
                      (snk := Sample.sink) (api := api) default_settings)) in
  NoDup (map w_layer written) /\
  map w_layer written = [lit "skred"; lit "rekkverk"].
Proof.
  intros api written.
  destruct (written_layer_names (rt := Sample.runtime) (geo := Sample.shapely)
              (snk := Sample.sink) (api := api) default_settings
              [Sample.skred; Sample.tunnel; Sample.rekkverk])
    as (_ & _ & Hdistinct); [reflexivity|].
  split; [|reflexivity].
  apply Hdistinct. refine (bool_decide_unpack _ _). vm_compute. exact I.
Defined.

(** C8 does not hold of the code: the names [A B] and [a-b] both sanitize
    to [a_b], and the rows of type 1 and the rows of type 2 are each
    written under the layer name [a_b], so two written layers share a
    name. *)
Lemma colliding_layer_names :
  let api := Sample.upstream [Sample.a_b; Sample.a_dash_b] Sample.answers in
  let written := outfile (final_state
                   (main (rt := Sample.runtime) (geo := Sample.shapely)
                      (snk := Sample.sink) (api := api) default_settings)) in
  map w_layer written = [lit "a_b"; lit "a_b"] /\
  map w_mode written = [Some ModeW; Some ModeA] /\
  map (fun w => map r_objekttype (w_rows w)) written = [[PInt 1]; [PInt 2]] /\
  ~ NoDup (map w_layer written).
Proof.
  intros api written.
  assert (map w_layer written = [lit "a_b"; lit "a_b"]) as Hnames by reflexivity.
  split; [exact Hnames|]. split; [reflexivity|]. split; [reflexivity|].
  rewrite Hnames. intros [Hnotin _]%NoDup_cons. apply Hnotin. by left.
Qed.

(* ===================================================================== *)
(** * Row construction does not touch the record *)
(* ===================================================================== *)

Section StoreFacts.
Context {rt : PyRuntime} {geo : Shapely}.
Variable cfg : settings.

(** C10.  Over the store of dict objects, building the row of a record
    [obj] returns the row computed from the record's items and leaves
    [obj], and every other object there was, with the items it had,
    [geometri] included.  With the properties option on, the only
    change to the store is one new object: the copy, without its
    [geometri] items. *)
Theorem build_row_preserves_record (h : Store.heap) (obj : Store.loc)
    (d : dict) (objtype_id objtype_name : pyval) (g : Geometry) :
  h !! obj = Some d ->
  exists h',
    Store.build_row_in cfg h objtype_id objtype_name obj g
      = Some (h', build_row cfg objtype_id objtype_name d g) /\
    h' !! obj = Some d /\
    (forall l, is_Some (h !! l) -> h' !! l = h !! l) /\
    (if INCLUDE_PROPERTIES_AS_JSON cfg
     then exists c, h !! c = None /\ h' = <[c := dict_pop d (lit "geometri")]> h
     else h' = h).
Proof.
  intros Hobj. unfold Store.build_row_in, Store.get, build_row, properties_of.
  rewrite Hobj. simpl.
  destruct (INCLUDE_PROPERTIES_AS_JSON cfg); [|by exists h].
  unfold Store.copy, Store.alloc, Store.pop, Store.dumps. rewrite Hobj. simpl.
  set (c := fresh (dom h)).
  assert (h !! c = None) as Hfresh by apply not_elem_of_dom, is_fresh.
  rewrite lookup_insert_eq. simpl. rewrite lookup_insert_eq. simpl.
  rewrite insert_insert_eq.
  eexists. split; [reflexivity|].
  assert (obj <> c) as Hne by congruence.
  split; [by rewrite lookup_insert_ne|].
  split; [|by exists c].
  intros l [x Hl]. rewrite lookup_insert_ne; [done | congruence].
Qed.
End StoreFacts.

(** A store with one record; the row is built, the record is as it
    was. *)
Lemma build_row_preserves_record_witness :
  let h : Store.heap := {[ 1%positive := Sample.point_record 1 ]} in
  exists h' r,
    Store.build_row_in (rt := Sample.runtime) (geo := Sample.shapely) default_settings
      h (PInt 10) (PStr (lit "Skred")) 1%positive (Sample.FromText (lit "POINT (10 70)"))
      = Some (h', r) /\
    h' !! 1%positive = Some (Sample.point_record 1).
Proof.
  intros h.
  destruct (build_row_preserves_record (rt := Sample.runtime) (geo := Sample.shapely)
              default_settings h 1%positive (Sample.point_record 1)
              (PInt 10) (PStr (lit "Skred")) (Sample.FromText (lit "POINT (10 70)")))
    as (h' & Hbuild & Hobj & _); [reflexivity|].
  exists h'. eexists. split; [exact Hbuild | exact Hobj].
Defined.

(* ===================================================================== *)
(** * Two complete runs *)
(* ===================================================================== *)

(** One type [Skred] with one record, whose geometry is a GeoJSON point:
    the file gets the layer [skred] with one row, nothing is skipped. *)
Example run_one_point :
  let api := Sample.upstream [Sample.skred]
               (fun _ => QueryReady (Sample.yields [Sample.point_record 1])) in
  exists w,
    main (rt := Sample.runtime) (geo := Sample.shapely) (snk := Sample.sink)
      (api := api) default_settings
    = Continue {| total_features := 1; total_skipped_no_geom := 0;
                  total_skipped_bad_geom := 0; failed_types := 0;
                  queried := [PInt 10]; outfile := [w] |} /\
    w_layer w = lit "skred" /\ w_mode w = Some ModeW /\ length (w_rows w) = 1.
Proof. eexists. repeat split. Qed.

(** The same type with a record whose geometry is the text
    [INVALID_WKT_@@@]: no row, no layer, one record skipped for bad
    geometry. *)
Example run_invalid_wkt :
  let api := Sample.upstream [Sample.skred]
               (fun _ => QueryReady (Sample.yields
                                       [Sample.text_record 1 "INVALID_WKT_@@@"])) in
  main (rt := Sample.runtime) (geo := Sample.shapely) (snk := Sample.sink)
    (api := api) default_settings
  = Continue {| total_features := 0; total_skipped_no_geom := 0;
                total_skipped_bad_geom := 1; failed_types := 0;
                queried := [PInt 10]; outfile := [] |}.
Proof. reflexivity. Qed.

(* ===================================================================== *)
(** * More on the string operations *)
(* ===================================================================== *)

Section StripFacts.
Variable p : codepoint -> bool.

Lemma lstrip_with_begins s : begins_with p (lstrip_with p s) = false.
Proof.
  unfold begins_with. induction s as [|c r IH]; simpl; [done|].
  destruct (p c) eqn:Ec; [exact IH | simpl; by rewrite Ec].
Qed.

Lemma lstrip_with_suffix s : lstrip_with p s `suffix_of` s.
Proof.
  induction s as [|c r IH]; simpl; [done|].
  destruct (p c); [by apply suffix_cons_r | done].
Qed.

Lemma rstrip_with_prefix s : rstrip_with p s `prefix_of` s.
Proof.
  destruct (lstrip_with_suffix (reverse s)) as [k Hk].
  exists (reverse k). unfold rstrip_with.
  by rewrite <- reverse_app, <- Hk, reverse_involutive.
Qed.

Lemma rstrip_with_ends s : ends_with p (rstrip_with p s) = false.
Proof.
  unfold ends_with, rstrip_with. rewrite last_reverse.
  apply lstrip_with_begins.
Qed.

Lemma begins_with_prefix s t :
  s `prefix_of` t -> begins_with p t = false -> begins_with p s = false.
Proof.
  intros [k ->] Ht. unfold begins_with in *. by destruct s.
Qed.

Lemma strip_with_begins s : begins_with p (strip_with p s) = false.
Proof.
  unfold strip_with. eapply begins_with_prefix; [apply rstrip_with_prefix|].
  apply lstrip_with_begins.
Qed.

Lemma strip_with_ends s : ends_with p (strip_with p s) = false.
Proof. apply rstrip_with_ends. Qed.

Lemma strip_with_infix s : exists a b, s = a ++ strip_with p s ++ b.
Proof.
  unfold strip_with.
  destruct (lstrip_with_suffix s) as [a Ha].
  destruct (rstrip_with_prefix (lstrip_with p s)) as [b Hb].
  exists a, b. by rewrite <- Hb.
Qed.

Lemma lstrip_with_id s : begins_with p s = false -> lstrip_with p s = s.
Proof. unfold begins_with. destruct s as [|c r]; simpl; [done|]. by intros ->. Qed.

Lemma strip_with_id s :
  begins_with p s = false -> ends_with p s = false -> strip_with p s = s.
Proof.
  intros Hb He. unfold strip_with, rstrip_with. rewrite (lstrip_with_id s Hb).
  rewrite lstrip_with_id; [apply reverse_involutive|].
  unfold begins_with, ends_with in *. by rewrite head_reverse.
Qed.

Lemma adjacent_cons a r :
  adjacent p (a :: r) = p a && begins_with p r || adjacent p r.
Proof. destruct r; simpl; by rewrite ?andb_false_r. Qed.

Lemma adjacent_app a b :
  adjacent p (a ++ b) = false -> adjacent p a = false /\ adjacent p b = false.
Proof.
  induction a as [|x a IH]; [done|]. rewrite <- app_comm_cons, !adjacent_cons.
  intros [Hx Ha]%orb_false_iff. destruct (IH Ha) as [Ha' Hb].
  split; [|done]. rewrite Ha', orb_false_r.
  destruct a as [|y a]; [by rewrite andb_false_r | exact Hx].
Qed.

Lemma re_sub_runs_keeps cls repl b s :
  Forall (fun c => cls c = false) s -> re_sub_runs cls repl b s = s.
Proof.
  intros Hs. revert b. induction Hs as [|c r Hc Hr IH]; intros b; simpl; [done|].
  by rewrite Hc, IH.
Qed.
End StripFacts.

(** Collapsing runs of underscores leaves no two in a row, and no
    leading one when the text before ended with one. *)
Lemma collapse_adjacent b s :
  adjacent is_underscore (re_sub_runs is_underscore [underscore] b s) = false /\
  (b = true ->
   begins_with is_underscore (re_sub_runs is_underscore [underscore] b s) = false).
Proof.
  revert b. induction s as [|c r IH]; intros b; [done|]. cbn [re_sub_runs].
  destruct (is_underscore c) eqn:Ec.
  - destruct (IH true) as [Hadj Hbeg]. specialize (Hbeg eq_refl).
    destruct b; cbn [app]; [done|]. split; [|done].
    by rewrite adjacent_cons, Hadj, Hbeg, andb_false_r.
  - destruct (IH false) as [Hadj _]. split.
    + by rewrite adjacent_cons, Hadj, Ec.
    + intros _. exact Ec.
Qed.

Lemma collapse_id b s :
  adjacent is_underscore s = false ->
  (b = true -> begins_with is_underscore s = false) ->
  re_sub_runs is_underscore [underscore] b s = s.
Proof.
  revert b. induction s as [|c r IH]; intros b; [done|].
  rewrite adjacent_cons. cbn [re_sub_runs].
  intros [Hc Hr]%orb_false_iff Hb.
  destruct (is_underscore c) eqn:Ec.
  - assert (c = underscore) as -> by (by apply N.eqb_eq in Ec).
    destruct b.
    + specialize (Hb eq_refl). cbn in Hb. congruence.
    + cbn [app]. f_equal. apply IH; [done|]. intros _. exact Hc.
  - f_equal. by apply IH.
Qed.

Section SanitizerShape.
Context {rt : PyRuntime}.

Lemma strip_collapse_tidy s :
  tidy (strip_with is_underscore (re_sub_plus is_underscore [underscore] s)).
Proof.
  split; [apply strip_with_begins|]. split; [apply strip_with_ends|].
  set (t := re_sub_plus is_underscore [underscore] s).
  assert (adjacent is_underscore t = false) as Hadj by apply collapse_adjacent.
  destruct (strip_with_infix is_underscore t) as (a & b & Ht).
  rewrite Ht in Hadj.
  apply adjacent_app in Hadj as [_ Hadj]. by apply adjacent_app in Hadj as [Hadj _].
Qed.

Lemma sanitize_tidy name : tidy (sanitize name).
Proof. apply strip_collapse_tidy. Qed.
End SanitizerShape.

Section SanitizerMore.
Context {rt : PyRuntime}.

Lemma tidy_take n s :
  s <> [] -> tidy s ->
  begins_with is_underscore (take n s) = false /\
  adjacent is_underscore (take n s) = false /\
  (length s <= n -> ends_with is_underscore (take n s) = false).
Proof.
  intros Hne (Hb & He & Ha). split; [|split].
  - eapply begins_with_prefix; [apply prefix_take | done].
  - rewrite <- (take_drop n s) in Ha. by apply adjacent_app in Ha as [Ha _].
  - intros Hlen. by rewrite take_ge.
Qed.

(** X1.  When sanitizing the name (the fallback, for an empty name)
    leaves something, the layer name does not begin with an underscore
    and has no two underscores in a row; it does not end with an
    underscore either, unless the sanitized name had more than 50
    characters and was cut. *)
Theorem safe_layer_name_tidy (name fallback : str) :
  let raw := if bool_decide (name = []) then fallback else name in
  sanitize raw <> [] ->
  begins_with is_underscore (safe_layer_name name fallback) = false /\
  adjacent is_underscore (safe_layer_name name fallback) = false /\
  (length (sanitize raw) <= 50 ->
   ends_with is_underscore (safe_layer_name name fallback) = false).
Proof.
  intros raw Hne. unfold safe_layer_name. fold raw.
  rewrite bool_decide_eq_false_2 by done.
  apply tidy_take; [done | apply sanitize_tidy].
Qed.

Lemma sanitize_id s :
  lower_fixes_layer_chars -> no_layer_char_is_space ->
  Forall (fun c => layer_char c = true) s -> tidy s ->
  sanitize s = s.
Proof.
  intros Hlower Hspace Hs (Hb & He & Ha). unfold sanitize, re_sub_plus.
  assert (strip_with str_isspace s = s) as ->.
  { apply strip_with_id.
    - unfold begins_with. destruct s as [|c r]; [done|]. simpl.
      apply Hspace. by inversion Hs.
    - unfold ends_with. destruct (last s) as [c|] eqn:El; [|done].
      apply Hspace. apply last_Some_elem_of in El.
      by apply (proj1 (Forall_forall _ _) Hs). }
  rewrite Hlower by done.
  rewrite (re_sub_runs_keeps (fun c => negb (layer_char c))).
  - rewrite collapse_id by done. by apply strip_with_id.
  - eapply Forall_impl; [exact Hs|]. intros c Hc. simpl in Hc. by rewrite Hc.
Qed.

(** X2.  A name that is already a layer name — non-empty, at most 50
    lowercase letters, digits and underscores, no underscore at either
    end and no two in a row — is returned unchanged, whatever the
    fallback.  This needs of [str.lower] and [str.strip] only that they
    leave such a string as it is. *)
Theorem safe_layer_name_fixes (name fallback : str) :
  lower_fixes_layer_chars -> no_layer_char_is_space ->
  layer_name_ok name -> tidy name ->
  safe_layer_name name fallback = name.
Proof.
  intros Hlower Hspace [[Hlen1 Hlen2] Hchars] Htidy.
  assert (name <> []) as Hne by (intros ->; simpl in Hlen1; lia).
  unfold safe_layer_name. rewrite (bool_decide_eq_false_2 (name = [])) by done.
  rewrite sanitize_id by done. rewrite bool_decide_eq_false_2 by done.
  by apply take_ge.
Qed.
End SanitizerMore.

Lemma ascii_lower_fixes : lower_fixes_layer_chars (rt := Sample.runtime).
Proof.
  intros s Hs. simpl. induction Hs as [|c r Hc Hr IH]; [done|]. simpl.
  rewrite IH. f_equal. unfold Sample.ascii_lower, layer_char, underscore in *.
  destruct (65 <=? c)%N eqn:E1, (c <=? 90)%N eqn:E2; simpl; try done.
  apply N.leb_le in E1, E2.
  repeat (apply orb_true_iff in Hc as [Hc|Hc]);
    rewrite ?andb_true_iff, ?N.leb_le, ?N.eqb_eq in Hc; lia.
Qed.

Lemma ascii_space_no_layer_char : no_layer_char_is_space (rt := Sample.runtime).
Proof.
  intros c Hc. simpl. unfold Sample.ascii_isspace, layer_char, underscore in *.
  apply orb_false_iff. rewrite !andb_false_iff, !N.leb_gt.
  repeat (apply orb_true_iff in Hc as [Hc|Hc]);
    rewrite ?andb_true_iff, ?N.leb_le, ?N.eqb_eq in Hc; lia.
Qed.

Lemma safe_layer_name_tidy_witness :
  begins_with is_underscore
    (safe_layer_name (rt := Sample.runtime) (lit "  _A  B--c__ ") (lit "objtype_10")) = false /\
  safe_layer_name (rt := Sample.runtime) (lit "  _A  B--c__ ") (lit "objtype_10") = lit "a_b_c".
Proof.
  destruct (safe_layer_name_tidy (rt := Sample.runtime) (lit "  _A  B--c__ ") (lit "objtype_10"))
    as (Hb & _); [eval_ne|].
  split; [exact Hb | reflexivity].
Defined.

Lemma safe_layer_name_fixes_witness :
  safe_layer_name (rt := Sample.runtime) (lit "a_b_c") (lit "objtype_10") = lit "a_b_c".
Proof.
  apply (safe_layer_name_fixes (rt := Sample.runtime)).
  - exact ascii_lower_fixes.
  - exact ascii_space_no_layer_char.
  - apply layer_name_okb_spec. reflexivity.
  - by_eval.
Defined.

(* ===================================================================== *)
(** * More on the geometry normalizer *)
(* ===================================================================== *)

Section NormalizerMore.
Context {rt : PyRuntime} {geo : Shapely}.

(** X3.  GeoJSON comes first: for a mapping with a string under [type]
    and a value other than [None] under [coordinates] on which [shape]
    succeeds, the result is the geometry [shape] made, whatever the
    mapping holds under [wkt] and [WKT]; [wkt.loads] has no part in
    it. *)
Theorem geojson_first (d : dict) (t : str) (g : Geometry) :
  dict_get d (lit "type") = PStr t ->
  dict_get d (lit "coordinates") <> PNone ->
  shape d = Some g ->
  parse_geometry (PDict d) = Some g.
Proof. apply parse_geometry_shape. Qed.

(** X5.  A geometry is never made up: when [parse_geometry] returns one,
    the input is truthy and the geometry is what [shape] returned for the
    input mapping, or what [wkt.loads] returned for the text found under
    [wkt]/[WKT] or for the input string itself, the text being passed as
    it is. *)
Theorem parse_geometry_source (geom : pyval) (g : Geometry) :
  parse_geometry geom = Some g ->
  truthy geom = true /\
  ((exists d, geom = PDict d /\
      (shape d = Some g \/
       exists s, py_or (dict_get d (lit "wkt")) (dict_get d (lit "WKT")) = PStr s /\
                 strip_with str_isspace s <> [] /\ wkt_loads s = Some g)) \/
   (exists s, geom = PStr s /\ strip_with str_isspace s <> [] /\ wkt_loads s = Some g)).
Proof.
  unfold parse_geometry. destruct (truthy geom) eqn:Et; simpl; [|done].
  intros Hg. split; [done|].
  assert (forall v, loads_text v = Some g ->
            exists s, v = PStr s /\ strip_with str_isspace s <> [] /\
                      wkt_loads s = Some g) as Hloads.
  { intros v. unfold loads_text. destruct v; try done. cbn [truthy].
    case_bool_decide; [done|]. simpl. by eauto. }
  destruct geom; try done.
  - right. by apply Hloads.
  - left. exists d. split; [done|].
    destruct (is_str _ && negb _).
    + destruct (shape d) as [g'|]; [left; congruence|].
      right. destruct (Hloads _ Hg) as (s & ? & ? & ?). by eauto.
    + right. destruct (Hloads _ Hg) as (s & ? & ? & ?). by eauto.
Qed.

(** X6.  A truthy value under [wkt] hides the key [WKT]: when the GeoJSON
    attempt gives nothing, the result is decided by the value under
    [wkt] alone — [None] if it is not a string or is blank, and
    [wkt.loads] of it otherwise — even if a good text sits under
    [WKT]. *)
Theorem wkt_key_first (d : dict) :
  truthy (dict_get d (lit "wkt")) = true ->
  (is_str (dict_get d (lit "type")) && negb (is_none (dict_get d (lit "coordinates")))
     = true -> shape d = None) ->
  ((forall s, dict_get d (lit "wkt") <> PStr s) -> parse_geometry (PDict d) = None) /\
  (forall s, dict_get d (lit "wkt") = PStr s ->
     parse_geometry (PDict d) =
       if bool_decide (strip_with str_isspace s = []) then None else wkt_loads s).
Proof.
  intros Ht Hshape.
  assert (d <> []) as Hne by (intros ->; discriminate Ht).
  rewrite (parse_geometry_case_b d Hne Hshape).
  unfold py_or. rewrite Ht. split.
  - intros Hs. destruct (dict_get d (lit "wkt")); try done. by destruct (Hs s).
  - intros s ->. unfold loads_text. cbn [truthy]. by case_bool_decide.
Qed.
End NormalizerMore.

(** X4.  [shape] is only consulted for a mapping that has a string under
    [type] and a value other than [None] under [coordinates]: for every
    other input the result is the same whatever [shape] would do. *)
Theorem shape_not_consulted {rt : PyRuntime} (G : Type)
    (shape1 shape2 : dict -> option G) (loads : str -> option G) (geom : pyval) :
  (forall d, geom = PDict d ->
     is_str (dict_get d (lit "type")) && negb (is_none (dict_get d (lit "coordinates")))
       = false) ->
  parse_geometry (geo := {| Geometry := G; shape := shape1; wkt_loads := loads |}) geom
  = parse_geometry (geo := {| Geometry := G; shape := shape2; wkt_loads := loads |}) geom.
Proof.
  intros Hd. unfold parse_geometry. destruct (negb (truthy geom)); [done|].
  destruct geom; try done. by rewrite (Hd d eq_refl).
Qed.

Lemma geojson_first_witness :
  parse_geometry (rt := Sample.runtime) (geo := Sample.shapely)
    (PDict Cases.point_with_text)
  = Some (Sample.FromMapping Cases.point_with_text).
Proof.
  apply (geojson_first (rt := Sample.runtime) (geo := Sample.shapely)
           Cases.point_with_text (lit "Point")).
  - reflexivity.
  - eval_ne.
  - reflexivity.
Defined.

Lemma parse_geometry_source_witness :
  exists s, PStr (lit "POINT (1 2)") = PStr s /\
    wkt_loads (Shapely := Sample.shapely) s = Some (Sample.FromText (lit "POINT (1 2)")).
Proof.
  destruct (parse_geometry_source (rt := Sample.runtime) (geo := Sample.shapely)
              (PStr (lit "POINT (1 2)")) (Sample.FromText (lit "POINT (1 2)")))
    as [_ [(d & Hd & _)|(s & Hs & _ & Hloads)]]; [reflexivity | discriminate Hd |].
  by exists s.
Defined.

Lemma wkt_key_first_witness :
  parse_geometry (rt := Sample.runtime) (geo := Sample.shapely)
    (PDict Cases.hidden_text) = None /\
  wkt_loads (Shapely := Sample.shapely) (lit "POINT (1 2)")
    = Some (Sample.FromText (lit "POINT (1 2)")).
Proof.
  split; [|reflexivity].
  destruct (wkt_key_first (rt := Sample.runtime) (geo := Sample.shapely)
              Cases.hidden_text) as [Hnone _].
  - reflexivity.
  - intros Hcase. vm_compute in Hcase. discriminate Hcase.
  - apply Hnone. eval_ne.
Defined.

Lemma shape_not_consulted_witness :
  parse_geometry (rt := Sample.runtime)
    (geo := {| Geometry := Sample.geometry; shape := fun d => Some (Sample.FromMapping d);
               wkt_loads := wkt_loads (Shapely := Sample.shapely) |})
    (PDict Cases.hidden_text)
  = parse_geometry (rt := Sample.runtime)
      (geo := {| Geometry := Sample.geometry; shape := fun _ => None;
                 wkt_loads := wkt_loads (Shapely := Sample.shapely) |})
      (PDict Cases.hidden_text).
Proof.
  apply (shape_not_consulted (rt := Sample.runtime) Sample.geometry).
  intros d [= <-]. reflexivity.
Defined.

(* ===================================================================== *)
(** * More on the fetch loop *)
(* ===================================================================== *)

Section LoopMore.
Context {rt : PyRuntime} {geo : Shapely}.
Variable cfg : settings.
Variables objtype_id objtype_name : pyval.

Lemma fetch_step_rows st obj :
  rows (fetch_step cfg objtype_id objtype_name st obj)
  = rows st ++ option_list (row_of cfg objtype_id objtype_name obj).
Proof.
  unfold fetch_step, row_of.
  destruct (truthy (dict_get obj (lit "geometri"))); simpl; [|by rewrite app_nil_r].
  destruct (parse_geometry _); simpl; [done | by rewrite app_nil_r].
Qed.

Lemma fetch_loop_rows_from st it fs :
  fetch_loop cfg objtype_id objtype_name st it = Some fs ->
  rows fs = rows st ++ omap (row_of cfg objtype_id objtype_name) (iter_records it).
Proof.
  revert st. induction it as [|obj rest IH|]; intros st; simpl; [| |done].
  - intros [= <-]. by rewrite app_nil_r.
  - intros Hloop. rewrite (IH _ Hloop), fetch_step_rows, <- app_assoc.
    by destruct (row_of _ _ _ obj).
Qed.

Lemma row_of_type obj r :
  row_of cfg objtype_id objtype_name obj = Some r ->
  r_id r = dict_get obj (lit "id") /\
  r_objekttype r = objtype_id /\ r_objekttype_navn r = objtype_name /\
  parse_geometry (dict_get obj (lit "geometri")) = Some (r_geometry r).
Proof.
  unfold row_of. destruct (truthy _); [|done].
  destruct (parse_geometry _) as [g|]; [|done]. simpl. by intros [= <-].
Qed.

Lemma fetch_loop_rows_typed it fs :
  fetch_loop cfg objtype_id objtype_name fetch_init it = Some fs ->
  rows fs = omap (row_of cfg objtype_id objtype_name) (iter_records it) /\
  Forall (fun r => r_objekttype r = objtype_id /\
                   r_objekttype_navn r = objtype_name) (rows fs).
Proof.
  intros Hloop. pose proof (fetch_loop_rows_from _ _ _ Hloop) as Hrows.
  simpl in Hrows. split; [done|]. rewrite Hrows.
  apply Forall_forall. intros r (obj & _ & Hr)%list_elem_of_omap.
  by destruct (row_of_type _ _ Hr) as (_ & ? & ? & _).
Qed.

(** X7.  When the iteration ends without an exception, the rows of the
    type are the rows of the records with a usable geometry, one per such
    record and in the order in which the records were yielded; each row
    carries the id of its record, the geometry parsed from it, and the id
    and the name of the type. *)
Theorem fetch_loop_rows (it : result_iter) (fs : fetch_state) :
  fetch_loop cfg objtype_id objtype_name fetch_init it = Some fs ->
  rows fs = omap (row_of cfg objtype_id objtype_name) (iter_records it) /\
  Forall (fun r => r_objekttype r = objtype_id /\
                   r_objekttype_navn r = objtype_name) (rows fs) /\
  (forall r, r ∈ rows fs ->
     exists obj, obj ∈ iter_records it /\
       r_id r = dict_get obj (lit "id") /\
       parse_geometry (dict_get obj (lit "geometri")) = Some (r_geometry r)).
Proof.
  intros Hloop. destruct (fetch_loop_rows_typed _ _ Hloop) as [Hrows Htype].
  split; [done|]. split; [done|]. rewrite Hrows.
  intros r (obj & Hobj & Hr)%list_elem_of_omap. exists obj.
  by destruct (row_of_type _ _ Hr) as (? & _ & _ & ?).
Qed.
End LoopMore.

(* ===================================================================== *)
(** * More on the run *)
(* ===================================================================== *)

Section RunMore.
Context {rt : PyRuntime} {geo : Shapely} {snk : Sink} {api : Upstream}.
Variable cfg : settings.

Lemma objtype_fallback_nonempty v : objtype_fallback v <> [].
Proof. done. Qed.

(** X8.  The layer name [main] computes for a catalog entry is never
    empty and never longer than 50 characters; it matches
    [^[a-z0-9_]{1,50}$] whenever the id is put into the f-string as
    lowercase letters, digits and underscores only, as a non-negative
    integer is. *)
Theorem layer_of_named (o : dict) (layer : str) :
  layer_of o = Some layer ->
  layer <> [] /\ length layer <= 50 /\
  (Forall (fun c => layer_char c = true) (py_format (objtype_id_of o)) ->
   layer_name_ok layer).
Proof.
  unfold layer_of. destruct (objtype_name_of o) as [| | | |name| |]; try done.
  intros [= <-]. set (fb := objtype_fallback (objtype_id_of o)).
  split; [|split; [apply safe_layer_name_length|]].
  - unfold safe_layer_name.
    assert (forall s : str, s <> [] -> take 50 s <> []) as Htake
      by (by intros [|c s]).
    case_bool_decide; by apply Htake.
  - intros Hfmt.
    assert (Forall (fun c => layer_char c = true) fb) as Hfb.
    { unfold fb, objtype_fallback. apply Forall_app. split; [by repeat constructor|done]. }
    unfold safe_layer_name. case_bool_decide; apply take_ok; try done.
    apply sanitize_chars.
Qed.

(** X9.  A catalog entry whose [navn] is truthy and not a string ends
    the run with an exception nothing catches ([safe_layer_name] calls
    [strip] on it): no query is made for the entry, nothing is counted,
    and no later entry is processed. *)
Theorem non_text_name_ends_run (st : run_state) (o : dict) (rest : list dict) :
  truthy (dict_get o (lit "navn")) = true ->
  (forall s, dict_get o (lit "navn") <> PStr s) ->
  process_type cfg st o = Uncaught st /\
  run_types cfg st (o :: rest) = Uncaught st.
Proof.
  intros Ht Hs.
  assert (layer_of o = None) as Hlayer.
  { unfold layer_of, objtype_name_of, py_or. rewrite Ht.
    destruct (dict_get o (lit "navn")); try done. by destruct (Hs s). }
  assert (process_type cfg st o = Uncaught st) as Hstep.
  { unfold process_type. by rewrite Hlayer. }
  split; [done|]. simpl. by rewrite Hstep.
Qed.

(** X10.  A catalog entry without [navn], or with a falsy one (empty
    string, [None]), is named [objtype_<id>]: that text is the name put
    into the rows and the text the layer name is made from. *)
Theorem missing_name_falls_back (o : dict) :
  truthy (dict_get o (lit "navn")) = false ->
  let fallback := objtype_fallback (objtype_id_of o) in
  objtype_name_of o = PStr fallback /\
  layer_of o = Some (safe_layer_name fallback fallback) /\
  fallback = lit "objtype_" ++ py_format (dict_get o (lit "id")).
Proof.
  intros Hf fallback.
  assert (objtype_name_of o = PStr fallback) as Hname.
  { unfold objtype_name_of, py_or. by rewrite Hf. }
  split; [done|]. split; [|done]. unfold layer_of. by rewrite Hname.
Qed.

(** X11.  When the query for a type cannot be set up, the loop body ends
    normally: the type is counted as failed, the totals and the output
    file are left as they were, and the run goes on with the next
    type. *)
Theorem setup_failure_isolated (st : run_state) (o : dict) (rest : list dict) :
  is_Some (layer_of o) ->
  nvdbFagdata (objtype_id_of o) (FYLKE cfg) = QueryRaises ->
  exists st',
    process_type cfg st o = Continue st' /\
    failed_types st' = failed_types st + 1 /\
    total_features st' = total_features st /\
    total_skipped_no_geom st' = total_skipped_no_geom st /\
    total_skipped_bad_geom st' = total_skipped_bad_geom st /\
    outfile st' = outfile st /\
    queried st' = queried st ++ [objtype_id_of o] /\
    run_types cfg st (o :: rest) = run_types cfg st' rest.
Proof.
  intros [layer Hlayer] Hquery.
  exists (count_failed (note_query st (objtype_id_of o))).
  assert (process_type cfg st o
          = Continue (count_failed (note_query st (objtype_id_of o)))) as Hstep.
  { unfold process_type. by rewrite Hlayer, Hquery. }
  split; [exact Hstep|]. simpl. by rewrite Hstep.
Qed.

(** X12.  A type none of whose records has a usable geometry is not
    written: [to_file] is not called, the file keeps the layers it had,
    the two skip totals grow by the type's counts, and neither the
    feature total nor the failed-type counter changes. *)
Theorem empty_type_not_written (st : run_state) (o : dict) (it : result_iter) :
  is_Some (layer_of o) ->
  nvdbFagdata (objtype_id_of o) (FYLKE cfg) = QueryReady it ->
  iter_raises it = false ->
  count_in Built (iter_records it) = 0 ->
  exists st',
    process_type cfg st o = Continue st' /\
    outfile st' = outfile st /\
    total_features st' = total_features st /\
    failed_types st' = failed_types st /\
    total_skipped_no_geom st'
      = total_skipped_no_geom st + count_in NoGeom (iter_records it) /\
    total_skipped_bad_geom st'
      = total_skipped_bad_geom st + count_in BadGeom (iter_records it).
Proof.
  intros [layer Hlayer] Hquery Hraises Hnone.
  destruct (fetch_loop_counts cfg (objtype_id_of o) (objtype_name_of o)
              fetch_init it Hraises) as (fs & Hloop & _ & Hb & Hn & Hg).
  simpl in Hb, Hn, Hg.
  assert (rows fs = []) as Hrows by (apply length_zero_iff_nil; lia).
  exists (count_skipped (note_query st (objtype_id_of o)) fs). split.
  - unfold process_type. rewrite Hlayer, Hquery, Hloop.
    by rewrite bool_decide_eq_true_2.
  - simpl. rewrite Hn, Hg. done.
Qed.

Lemma write_layer_spec st layer fs :
  write_layer cfg st layer fs = Uncaught st \/
  exists m,
    (m = None \/ m = Some (if bool_decide (outfile st = []) then ModeW else ModeA)) /\
    write_layer cfg st layer fs
    = Continue (count_written st fs
                  {| w_layer := layer; w_crs := CRS cfg; w_mode := m; w_rows := rows fs |}).
Proof.
  unfold write_layer. rewrite negb_involutive.
  destruct (to_file _ _); [right; eexists; by split; [right|] | | by left].
  destruct (to_file _ _); [right; eexists; by split; [left|] | by left | by left].
Qed.


(** X14.  Write errors.  When [to_file] raises [TypeError] on the call
    with [mode], the same layer is written by a second call without
    [mode]; if that call raises too, or if the first call raises anything
    but [TypeError], the exception is not caught: the run ends and
    neither the totals nor the file's history change. *)
Theorem write_layer_errors (st : run_state) (layer : str) (fs : fetch_state) :
  let w m := {| w_layer := layer; w_crs := CRS cfg; w_mode := m; w_rows := rows fs |} in
  let mode := if bool_decide (outfile st = []) then ModeW else ModeA in
  (to_file (outfile st) (w (Some mode)) = RaisesOther ->
     write_layer cfg st layer fs = Uncaught st) /\
  (to_file (outfile st) (w (Some mode)) = RaisesTypeError ->
     (to_file (outfile st) (w None) = Written ->
        write_layer cfg st layer fs = Continue (count_written st fs (w None))) /\
     (to_file (outfile st) (w None) <> Written ->
        write_layer cfg st layer fs = Uncaught st)).
Proof.
  intros w mode. subst w mode. unfold write_layer. cbv zeta beta.
  rewrite negb_involutive.
  split; [by intros ->|]. intros ->. split; [by intros ->|].
  intros Hne. by destruct (to_file _ _).
Qed.
End RunMore.

Section RunInvariant.
Context {rt : PyRuntime} {geo : Shapely} {snk : Sink} {api : Upstream}.
Variable cfg : settings.

Lemma run_ok_init : run_ok cfg run_init.
Proof. repeat split; simpl; [constructor | done | lia]. Qed.

Lemma run_ok_written st fs m objtype_id objtype_name layer :
  run_ok cfg st ->
  rows fs <> [] ->
  Forall (fun r => r_objekttype r = objtype_id /\
                   r_objekttype_navn r = objtype_name) (rows fs) ->
  m = None \/ m = Some (if bool_decide (outfile st = []) then ModeW else ModeA) ->
  run_ok cfg (count_written (note_query st objtype_id) fs
                {| w_layer := layer; w_crs := CRS cfg; w_mode := m; w_rows := rows fs |}).
Proof.
  intros (Hlayers & Hmodes & Htotal & Hcount) Hne Htype Hm.
  unfold run_ok. simpl. split; [|split; [|split]].
  - apply Forall_app. split; [done|]. constructor; [|done]. simpl.
    split; [done|]. split; [done|]. by exists objtype_id, objtype_name.
  - intros i w [Hw|[Hi Hw]]%lookup_app_Some; [by apply Hmodes|].
    apply list_lookup_singleton_Some in Hw as [Hi' <-].
    unfold mode_fits. simpl. destruct Hm as [->| ->]; [done|].
    case_bool_decide as Hnil.
    + rewrite Hnil in Hi, Hi'. simpl in Hi, Hi'. lia.
    + assert (length (outfile st) <> 0) by (by destruct (outfile st)). lia.
  - unfold rows_total in *. rewrite sum_list_with_app. simpl. lia.
  - rewrite !length_app. simpl. lia.
Qed.

Lemma process_type_ok st o :
  run_ok cfg st -> run_ok cfg (final_state (process_type cfg st o)).
Proof.
  intros Hok. pose proof Hok as (Hlayers & Hmodes & Htotal & Hcount).
  unfold process_type.
  destruct (layer_of o) as [layer|]; [|done].
  assert (run_ok cfg (count_failed (note_query st (objtype_id_of o)))) as Hfailed.
  { repeat split; simpl; try done. rewrite length_app. simpl. lia. }
  destruct (nvdbFagdata _ _) as [|it]; [done|].
  destruct (fetch_loop _ _ _ _ _) as [fs|] eqn:Hloop; [|done].
  case_bool_decide as Hrows.
  { repeat split; simpl; try done. rewrite length_app. simpl. lia. }
  destruct (fetch_loop_rows_typed cfg _ _ _ _ Hloop) as (_ & Htype).
  destruct (write_layer_spec cfg (note_query st (objtype_id_of o)) layer fs)
    as [->|(m & Hm & ->)]; simpl.
  - repeat split; simpl; try done. rewrite length_app. simpl. lia.
  - by eapply run_ok_written.
Qed.

Lemma run_types_ok st objtypes :
  run_ok cfg st -> run_ok cfg (final_state (run_types cfg st objtypes)).
Proof.
  revert st. induction objtypes as [|o rest IH]; intros st Hok; [done|]. simpl.
  pose proof (process_type_ok st o Hok) as Hstep.
  destruct (process_type cfg st o); [by apply IH | done].
Qed.

Lemma main_ok : run_ok cfg (final_state (main cfg)).
Proof.
  unfold main. destruct nvdbObjekttyper; [|apply run_ok_init].
  apply run_types_ok, run_ok_init.
Qed.



(** X17.  At every point where a run can end, the feature total printed
    in the summary is the number of rows held by the layers that were
    written. *)
Theorem total_features_written :
  total_features (final_state (main cfg))
  = rows_total (outfile (final_state (main cfg))).
Proof. by destruct main_ok as (_ & _ & Htotal & _). Qed.

(** X18.  The failed types and the written layers come from different
    queries: their numbers together never exceed the number of queries
    made. *)
Theorem failed_and_written_bounded :
  failed_types (final_state (main cfg)) + length (outfile (final_state (main cfg)))
  <= length (queried (final_state (main cfg))).
Proof. by destruct main_ok as (_ & _ & _ & Hcount). Qed.

(** X19.  A catalog in which no entry has a truthy geometry flag gives a
    run that queries nothing, writes nothing and ends normally with all
    counters at zero. *)
Theorem no_geometry_types (ot : list dict) :
  nvdbObjekttyper = Some ot ->
  Forall (fun o => has_geometry o = false) ot ->
  main cfg = Continue run_init.
Proof.
  intros Hcat Hnone. unfold main. rewrite Hcat. unfold select_objtypes.
  assert (List.filter has_geometry ot = []) as ->; [|done].
  clear Hcat. induction Hnone as [|o rest Ho Hrest IH]; [done|].
  cbn [List.filter]. by rewrite Ho.
Qed.

(** X20.  An iteration of the loop over the types only adds: the history
    of the file and the list of queries are extended at their ends, and
    no counter decreases; this holds up to the point where a run ends,
    also when it ends with an uncaught exception. *)
Theorem run_only_adds (st : run_state) (objtypes : list dict) :
  let st' := final_state (run_types cfg st objtypes) in
  outfile st `prefix_of` outfile st' /\
  queried st `prefix_of` queried st' /\
  total_features st <= total_features st' /\
  total_skipped_no_geom st <= total_skipped_no_geom st' /\
  total_skipped_bad_geom st <= total_skipped_bad_geom st' /\
  failed_types st <= failed_types st'.
Proof.
  assert (forall st o, let st1 := final_state (process_type cfg st o) in
          outfile st `prefix_of` outfile st1 /\
          queried st `prefix_of` queried st1 /\
          total_features st <= total_features st1 /\
          total_skipped_no_geom st <= total_skipped_no_geom st1 /\
          total_skipped_bad_geom st <= total_skipped_bad_geom st1 /\
          failed_types st <= failed_types st1) as Hstep.
  { intros st0 o. unfold process_type.
    destruct (layer_of o) as [layer|]; [|by simpl].
    destruct (nvdbFagdata _ _) as [|it]; simpl;
      [repeat split; first [lia | by apply prefix_app_r | done]|].
    destruct (fetch_loop _ _ _ _ _) as [fs|]; simpl;
      [|repeat split; first [lia | by apply prefix_app_r | done]].
    case_bool_decide; simpl;
      [repeat split; first [lia | by apply prefix_app_r | done]|].
    destruct (write_layer_spec cfg (note_query st0 (objtype_id_of o)) layer fs)
      as [->|(m & _ & ->)]; simpl;
      repeat split; first [lia | by apply prefix_app_r | done]. }
  revert st. induction objtypes as [|o rest IH]; intros st; simpl; [done|].
  specialize (Hstep st o).
  destruct (process_type cfg st o) as [st1|st1]; simpl in *; [|done].
  destruct (IH st1) as (H1 & H2 & H3 & H4 & H5 & H6).
  destruct Hstep as (G1 & G2 & G3 & G4 & G5 & G6).
  repeat split; try lia; by etrans.
Qed.
End RunInvariant.

(* ===================================================================== *)
(** * The name of the output file *)
(* ===================================================================== *)






(* ===================================================================== *)
(** * Examples for the further properties *)
(* ===================================================================== *)

(** Of the four records of type 10 only the first gives a row. *)
Lemma fetch_loop_rows_witness :
  exists fs r,
    fetch_loop (rt := Sample.runtime) (geo := Sample.shapely) default_settings
      (PInt 10) (PStr (lit "Skred")) fetch_init
      (Sample.yields [Sample.point_record 1; Sample.text_record 2 EmptyString;
                      Sample.text_record 3 "INVALID_WKT_@@@"; [(lit "id", PInt 4)]])
    = Some fs /\
    rows fs = [r] /\ r_id r = PInt 1 /\ r_objekttype r = PInt 10.
Proof.
  destruct (fetch_loop (rt := Sample.runtime) (geo := Sample.shapely) default_settings
              (PInt 10) (PStr (lit "Skred")) fetch_init
              (Sample.yields [Sample.point_record 1; Sample.text_record 2 EmptyString;
                              Sample.text_record 3 "INVALID_WKT_@@@";
                              [(lit "id", PInt 4)]])) as [fs|] eqn:Hloop;
    [|vm_compute in Hloop; discriminate Hloop].
  destruct (fetch_loop_rows (rt := Sample.runtime) (geo := Sample.shapely)
              default_settings (PInt 10) (PStr (lit "Skred")) _ fs Hloop)
    as (Hrows & _).
  exists fs. eexists. split; [reflexivity|]. split; [exact Hrows|]. by split.
Defined.

Lemma layer_of_named_witness :
  layer_of (rt := Sample.runtime) Sample.skred = Some (lit "skred") /\
  layer_name_ok (lit "skred").
Proof.
  split; [reflexivity|].
  apply (layer_of_named (rt := Sample.runtime) Sample.skred (lit "skred")).
  - reflexivity.
  - by repeat constructor.
Defined.

Lemma non_text_name_ends_run_witness :
  let api := Sample.upstream [Cases.numbered; Sample.skred] Sample.answers in
  main (rt := Sample.runtime) (geo := Sample.shapely) (snk := Sample.sink)
    (api := api) default_settings = Uncaught run_init.
Proof.
  intros api.
  destruct (non_text_name_ends_run (rt := Sample.runtime) (geo := Sample.shapely)
              (snk := Sample.sink) (api := api) default_settings run_init
              Cases.numbered [Sample.skred]) as [_ Hrun].
  - reflexivity.
  - eval_ne.
  - exact Hrun.
Defined.

Lemma missing_name_falls_back_witness :
  layer_of (rt := Sample.runtime) Cases.unnamed = Some (lit "objtype_70").
Proof.
  destruct (missing_name_falls_back (rt := Sample.runtime) Cases.unnamed)
    as (_ & Hlayer & _); [reflexivity|].
  rewrite Hlayer. reflexivity.
Defined.

Lemma setup_failure_isolated_witness :
  let api := Sample.upstream [Cases.bom; Sample.skred] Sample.answers in
  exists st',
    process_type (rt := Sample.runtime) (geo := Sample.shapely) (snk := Sample.sink)
      (api := api) default_settings run_init Cases.bom = Continue st' /\
    failed_types st' = 1 /\ queried st' = [PInt 60] /\ outfile st' = [].
Proof.
  intros api.
  destruct (setup_failure_isolated (rt := Sample.runtime) (geo := Sample.shapely)
              (snk := Sample.sink) (api := api) default_settings run_init
              Cases.bom [Sample.skred])
    as (st' & Hstep & Hfailed & _ & _ & _ & Hfile & Hq & _).
  - by eexists.
  - reflexivity.
  - exists st'. by rewrite Hfailed, Hq, Hfile.
Defined.

Lemma empty_type_not_written_witness :
  let api := Sample.upstream [Cases.stikkrenne] Cases.answers in
  exists st',
    process_type (rt := Sample.runtime) (geo := Sample.shapely) (snk := Sample.sink)
      (api := api) default_settings run_init Cases.stikkrenne = Continue st' /\
    outfile st' = [] /\ total_skipped_no_geom st' = 1 /\ total_skipped_bad_geom st' = 1.
Proof.
  intros api.
  destruct (empty_type_not_written (rt := Sample.runtime) (geo := Sample.shapely)
              (snk := Sample.sink) (api := api) default_settings run_init
              Cases.stikkrenne
              (Sample.yields [Sample.text_record 1 "INVALID_WKT_@@@";
                              [(lit "id", PInt 2)]]))
    as (st' & Hstep & Hfile & _ & _ & Hn & Hg).
  - by eexists.
  - reflexivity.
  - reflexivity.
  - reflexivity.
  - exists st'. rewrite Hfile, Hn, Hg. by_eval.
Defined.


(** With a [to_file] that does not know [mode], the layer is written by
    the call without [mode]. *)
Lemma write_layer_errors_witness :
  exists w,
    write_layer (geo := Sample.shapely) (snk := Cases.old_sink) default_settings
      run_init (lit "skred") fetch_init
    = Continue (count_written run_init fetch_init w) /\
    w_mode w = None.
Proof.
  destruct (write_layer_errors (geo := Sample.shapely) (snk := Cases.old_sink)
              default_settings run_init (lit "skred") fetch_init) as [_ Hretry].
  destruct Hretry as [Hwritten _]; [reflexivity|].
  eexists. split; [apply Hwritten; reflexivity | reflexivity].
Defined.


Lemma no_geometry_types_witness :
  let api := Sample.upstream [Sample.kum; Sample.bru] Sample.answers in
  main (rt := Sample.runtime) (geo := Sample.shapely) (snk := Sample.sink)
    (api := api) default_settings = Continue run_init.
Proof.
  intros api.
  apply (no_geometry_types (rt := Sample.runtime) (geo := Sample.shapely)
           (snk := Sample.sink) (api := api) default_settings
           [Sample.kum; Sample.bru]); [reflexivity | by repeat constructor].
Defined.

